(** * Smartlead campaign MCP server: client and tool surface

    A shallow embedding of [src/utils.py] (the [SmartleadClient], the
    response and error formatting helpers) and of [src/main.py] (the
    lifespan and the MCP tools), followed by the properties of the
    natural-language specification.

    Modelling conventions.
    - Python values that travel through the client are the JSON-shaped
      ones: [None], [bool], [int], [str], [list] and [dict] with string
      keys.  Floating point numbers are left out.
    - A Python [str] is a Rocq [string]; one [ascii] is one character,
      so the model covers the code points below 256.
    - A [dict] is an insertion-ordered association list: [json.dumps]
      prints the entries in that order.
    - Coroutines run to completion: [await e] is [e].  A computation is
      a function of the world (the object store and the log of what was
      done on connections) that returns a value or raises, and the world
      it leaves behind. *)

From Stdlib Require Import ZArith String Ascii List Lia DecimalString.
From stdpp Require Import base option list gmap strings.

Local Open Scope Z_scope.
Local Open Scope string_scope.

(** ** Python values *)

Local Set Warnings "-register-all".

Inductive value : Type :=
| PyNone
| PyBool (b : bool)
| PyInt (n : Z)
| PyStr (s : string)
| PyList (xs : list value)
| PyDict (items : list (string * value)).

Abbreviation dict := (list (string * value)).

(** [type(v).__name__] *)
Definition type_name (v : value) : string :=
  match v with
  | PyNone => "NoneType"
  | PyBool _ => "bool"
  | PyInt _ => "int"
  | PyStr _ => "str"
  | PyList _ => "list"
  | PyDict _ => "dict"
  end.

(** [bool(v)]: the truth value Python's [if v:] tests. *)
Definition truthy (v : value) : bool :=
  match v with
  | PyNone => false
  | PyBool b => b
  | PyInt n => negb (n =? 0)%Z
  | PyStr s => negb (String.eqb s "")
  | PyList xs => match xs with [] => false | _ => true end
  | PyDict items => match items with [] => false | _ => true end
  end.

(** [isinstance(v, (dict, list))] *)
Definition is_dict_or_list (v : value) : bool :=
  match v with
  | PyList _ | PyDict _ => true
  | _ => false
  end.

(** ** Dictionaries *)

(** [k in d], and the value [d[k]] when it is. *)
Fixpoint dict_lookup (k : string) (d : dict) : option value :=
  match d with
  | [] => None
  | (k', v) :: rest => if String.eqb k k' then Some v else dict_lookup k rest
  end.

(** [d[k] = v]: an existing entry keeps its place, a new one goes last. *)
Fixpoint dict_setitem (k : string) (v : value) (d : dict) : dict :=
  match d with
  | [] => [(k, v)]
  | (k', v') :: rest =>
      if String.eqb k k' then (k, v) :: rest
      else (k', v') :: dict_setitem k v rest
  end.

(** [d.keys()] *)
Definition dict_keys (d : dict) : list string := map fst d.

(** ** Strings *)

Definition slash : ascii := "/"%char.

(** [s.lstrip('/')] *)
Fixpoint lstrip_slash (s : string) : string :=
  match s with
  | String c rest => if Ascii.eqb c slash then lstrip_slash rest else s
  | EmptyString => EmptyString
  end.

(** [s.rstrip('/')] *)
Fixpoint rstrip_slash (s : string) : string :=
  match s with
  | String c rest =>
      match rstrip_slash rest with
      | EmptyString => if Ascii.eqb c slash then EmptyString else String c EmptyString
      | kept => String c kept
      end
  | EmptyString => EmptyString
  end.

(** [f"{api_url.rstrip('/')}/{endpoint.lstrip('/')}"] *)
Definition join_url (api_url endpoint : string) : string :=
  rstrip_slash api_url +:+ "/" +:+ lstrip_slash endpoint.

(** [sep.join(parts)] *)
Fixpoint join (sep : string) (parts : list string) : string :=
  match parts with
  | [] => ""
  | [p] => p
  | p :: rest => p +:+ sep +:+ join sep rest
  end.

(** [str(n)] for an [int] *)
Definition str_int (n : Z) : string := NilZero.string_of_int (Z.to_int n).

Definition hex_digit (n : N) : ascii :=
  match String.get (N.to_nat n) "0123456789abcdef" with
  | Some c => c
  | None => "0"%char
  end.

(** ['{0:02x}'.format(n)] for a character code *)
Definition hex2 (n : N) : string :=
  String (hex_digit (n / 16)) (String (hex_digit (n mod 16)) "").

Definition dquote : ascii := "034"%char.
Definition squote : ascii := "039"%char.
Definition backslash : ascii := "092"%char.
Definition newline : ascii := "010"%char.

Definition char (c : ascii) : string := String c "".

Fixpoint concat_map (f : ascii -> string) (s : string) : string :=
  match s with
  | EmptyString => EmptyString
  | String c rest => f c +:+ concat_map f rest
  end.

Fixpoint contains (c : ascii) (s : string) : bool :=
  match s with
  | EmptyString => false
  | String c' rest => Ascii.eqb c c' || contains c rest
  end.

Fixpoint spaces (n : nat) : string :=
  match n with
  | O => ""
  | S m => String " "%char (spaces m)
  end.

(** ** [json.dumps] *)

(** One character of a JSON string literal ([json.encoder]'s [ESCAPE]
    and [ESCAPE_ASCII] tables): the quote, the backslash and the control
    characters are escaped always, the characters above [~] only when
    [ensure_ascii] is set. *)
Definition json_escape (ensure_ascii : bool) (c : ascii) : string :=
  let n := N_of_ascii c in
  if Ascii.eqb c dquote then String backslash (char dquote)
  else if Ascii.eqb c backslash then String backslash (char backslash)
  else if (n =? 10)%N then "\n"
  else if (n =? 13)%N then "\r"
  else if (n =? 9)%N then "\t"
  else if (n =? 12)%N then "\f"
  else if (n =? 8)%N then "\b"
  else if (n <? 32)%N || (ensure_ascii && (126 <? n)%N) then "\u00" +:+ hex2 n
  else char c.

Definition json_string (ensure_ascii : bool) (s : string) : string :=
  char dquote +:+ concat_map (json_escape ensure_ascii) s +:+ char dquote.

Section Dumps.
Variable ensure_ascii : bool.
Variable indent : option nat.

Definition item_separator : string :=
  match indent with None => ", " | Some _ => "," end.

(** The line break and indentation that precede an item at [level];
    nothing at all without [indent]. *)
Definition newline_indent (level : nat) : string :=
  match indent with
  | None => ""
  | Some width => String newline (spaces (width * level))
  end.

Fixpoint dumps_at (level : nat) (v : value) : string :=
  match v with
  | PyNone => "null"
  | PyBool true => "true"
  | PyBool false => "false"
  | PyInt n => str_int n
  | PyStr s => json_string ensure_ascii s
  | PyList [] => "[]"
  | PyList xs =>
      "[" +:+ newline_indent (S level)
      +:+ join (item_separator +:+ newline_indent (S level))
               (map (dumps_at (S level)) xs)
      +:+ newline_indent level +:+ "]"
  | PyDict [] => "{}"
  | PyDict items =>
      "{" +:+ newline_indent (S level)
      +:+ join (item_separator +:+ newline_indent (S level))
               (map (fun kv => match kv with
                               | (k, x) => json_string ensure_ascii k +:+ ": "
                                           +:+ dumps_at (S level) x
                               end) items)
      +:+ newline_indent level +:+ "}"
  end.
End Dumps.

(** [json.dumps(v, ensure_ascii=..., indent=...)] *)
Definition json_dumps (ensure_ascii : bool) (indent : option nat) (v : value) : string :=
  dumps_at ensure_ascii indent 0 v.

(** ** [str] and [repr] *)

(** The characters [repr] prints as they are: the printable ASCII ones
    and, above them, all but the C1 controls, the no-break space and the
    soft hyphen. *)
Definition printable (n : N) : bool :=
  ((32 <=? n) && (n <? 127) || (161 <=? n) && negb (n =? 173))%N.

Definition repr_char (quote c : ascii) : string :=
  let n := N_of_ascii c in
  if Ascii.eqb c quote || Ascii.eqb c backslash then String backslash (char c)
  else if (n =? 9)%N then "\t"
  else if (n =? 10)%N then "\n"
  else if (n =? 13)%N then "\r"
  else if printable n then char c
  else "\x" +:+ hex2 n.

(** [repr(s)] for a [str]: single quotes, unless the text has a single
    quote and no double quote. *)
Definition repr_str (s : string) : string :=
  let quote := if contains squote s && negb (contains dquote s) then dquote else squote in
  char quote +:+ concat_map (repr_char quote) s +:+ char quote.

Fixpoint py_repr (v : value) : string :=
  match v with
  | PyNone => "None"
  | PyBool true => "True"
  | PyBool false => "False"
  | PyInt n => str_int n
  | PyStr s => repr_str s
  | PyList xs => "[" +:+ join ", " (map py_repr xs) +:+ "]"
  | PyDict items =>
      "{" +:+ join ", " (map (fun kv => match kv with
                                      | (k, x) => repr_str k +:+ ": " +:+ py_repr x
                                      end) items) +:+ "}"
  end.

(** [str(v)] *)
Definition py_str (v : value) : string :=
  match v with
  | PyStr s => s
  | _ => py_repr v
  end.

(** ** Exceptions

    The classes the two files raise or catch; all of them derive from
    [Exception].  [RequestError] stands for [httpx.RequestError] and its
    subclasses (connection refused, timeout, DNS failure ...),
    [OtherException] for anything else a library call may raise; both
    carry the text [str(e)] gives. *)

Inductive exn : Type :=
| SmartleadAPIError (status_code : Z) (message : value) (details : value)
| ValueError (msg : string)
| AttributeError (msg : string)
| RequestError (msg : string)
| OtherException (msg : string).

Definition is_RequestError (e : exn) : bool :=
  match e with RequestError _ => true | _ => false end.

(** [str(e)]; [SmartleadAPIError.__init__] passes its own text to
    [Exception.__init__]. *)
Definition str_exn (e : exn) : string :=
  match e with
  | SmartleadAPIError status_code message _ =>
      "Smartlead API Error (" +:+ str_int status_code +:+ "): " +:+ py_str message
  | ValueError msg | AttributeError msg | RequestError msg | OtherException msg => msg
  end.

(** ** HTTP *)

(** The arguments of [client.request(...)]. *)
Record Request : Type := mkRequest {
  method : string;
  url : string;
  params : dict;
  json : option value;
  headers : gmap string string
}.

(** What the code reads of an [httpx.Response]: [status_code], [text]
    and [json()], which is [None] here where it raises
    [json.JSONDecodeError]. *)
Record Response : Type := mkResponse {
  status_code : Z;
  text : string;
  json_body : option value
}.

(** What [await client.request(...)] does: it returns a response or
    raises. *)
Inductive reply : Type :=
| Responds (r : Response)
| Fails (e : exn).

(** An [httpx.AsyncClient]: one handed to the [SmartleadClient] at
    construction, or one made for a single call. *)
Inductive AsyncClient : Type :=
| Injected (id : nat)
| Transient (timeout : Z).

Inductive event : Type :=
| Opened (c : AsyncClient)
| Requested (c : AsyncClient) (r : Request)
| Closed (c : AsyncClient).

(** ** The world and computations *)

Abbreviation loc := positive.

(** [heap] holds the dictionaries that are passed by reference and
    mutated, [log] what happened on connections, oldest first. *)
Record world : Type := mkWorld {
  heap : gmap loc dict;
  log : list event
}.

Inductive outcome (A : Type) : Type :=
| Returns (a : A)
| Raises (e : exn).
Arguments Returns {A} a.
Arguments Raises {A} e.

Definition M (A : Type) : Type := world -> outcome A * world.

Definition ret {A} (a : A) : M A := fun w => (Returns a, w).

Definition raise {A} (e : exn) : M A := fun w => (Raises e, w).

Definition bind {A B} (m : M A) (k : A -> M B) : M B :=
  fun w =>
    match m w with
    | (Returns a, w') => k a w'
    | (Raises e, w') => (Raises e, w')
    end.

Declare Scope py_scope.
Delimit Scope py_scope with py.
Notation "x <- m ;; k" := (bind m (fun x => k))
  (at level 100, m at next level, right associativity) : py_scope.
Notation "m ;;; k" := (bind m (fun _ => k))
  (at level 100, right associativity) : py_scope.
Local Open Scope py_scope.

(** [try: body  except C as e: handler e], where [catches] tells the
    instances of [C]. *)
Definition try_except {A} (body : M A) (catches : exn -> bool) (handler : exn -> M A) : M A :=
  fun w =>
    match body w with
    | (Raises e, w') => if catches e then handler e w' else (Raises e, w')
    | r => r
    end.

(** [try: body  finally: final]: [final] runs on every exit, and an
    exception of its own replaces the outcome of [body]. *)
Definition try_finally {A} (body : M A) (final : M unit) : M A :=
  fun w =>
    match body w with
    | (r, w') =>
        match final w' with
        | (Returns _, w'') => (r, w'')
        | (Raises e, w'') => (Raises e, w'')
        end
    end.

(** [except Exception]: every class of [exn] derives from it. *)
Definition Exception (e : exn) : bool := true.

(** A dictionary display [{...}] makes a new object. *)
Definition new_dict (d : dict) : M loc :=
  fun w =>
    let l := fresh (dom (heap w)) in
    (Returns l, mkWorld (<[l := d]> (heap w)) (log w)).

(** The contents of the dictionary at [l]. *)
Definition read_dict (l : loc) : M dict :=
  fun w => (Returns (default [] (heap w !! l)), w).

(** [l[k] = v], on the object itself. *)
Definition store_setitem (l : loc) (k : string) (v : value) : M unit :=
  fun w =>
    (Returns tt,
     mkWorld (<[l := dict_setitem k v (default [] (heap w !! l))]> (heap w)) (log w)).

Definition emit (ev : event) : M unit :=
  fun w => (Returns tt, mkWorld (heap w) (log w ++ [ev])).

(** [v.get(k, fallback)]: only a [dict] has the method. *)
Definition py_get (v : value) (k : string) (fallback : value) : M value :=
  match v with
  | PyDict items => ret (default fallback (dict_lookup k items))
  | _ => raise (AttributeError ("'" +:+ type_name v +:+ "' object has no attribute 'get'"))
  end.

(** ** [utils.py]: the API client *)

Record SmartleadClient : Type := mkClient {
  api_key : string;
  api_url : string;
  timeout : Z;
  http_client : option AsyncClient
}.

(** The dataclass defaults of [api_url], [timeout] and [http_client]. *)
Definition default_api_url : string := "https://server.smartlead.ai/api/v1".

Definition new_SmartleadClient (api_key api_url : string) : SmartleadClient :=
  mkClient api_key api_url 30 None.

(** [if arg is not None: data[k] = arg] *)
Definition set_if_not_None {A} (k : string) (inj : A -> value) (arg : option A)
    (data : dict) : dict :=
  match arg with
  | Some a => dict_setitem k (inj a) data
  | None => data
  end.

Definition PyStrs (l : list string) : value := PyList (map PyStr l).
Definition PyInts (l : list Z) : value := PyList (map PyInt l).

(** The [default_headers] of [_request]. *)
Definition default_headers : gmap string string :=
  <["Content-Type" := "application/json"]> (<["Accept" := "application/json"]> ∅).

Section Client.
(** The remote service and the network in front of it. *)
Variable network : Request -> reply.

(** [await client.request(...)] *)
Definition client_request (client : AsyncClient) (r : Request) : M Response :=
  emit (Requested client r) ;;;
  match network r with
  | Responds response => ret response
  | Fails e => raise e
  end.

(** [await client.aclose()] *)
Definition aclose (client : AsyncClient) : M unit := emit (Closed client).

(** The headers sent: the two defaults, then every caller entry
    written over them ([for key, value in headers.items():
    default_headers[key] = value], skipped for an empty [headers]). *)
Definition merge_headers (headers : option (gmap string string))
  : gmap string string :=
  match headers with
  | Some given =>
      if decide (given = ∅) then default_headers
      else map_fold (fun key value acc => <[key := value]> acc) default_headers given
  | None => default_headers
  end.

(** What [_request] does with the response once it has one: decode
    the body, raise on an error status, return the data otherwise. *)
Definition decode (response : Response) : M value :=
  let response_data :=
    match json_body response with
    | Some v => v
    | None => PyDict [("message", PyStr (text response))]
    end in
  if (400 <=? status_code response)%Z then
    error_message <- py_get response_data "message" (PyStr "Unknown error") ;;
    error_details <- py_get response_data "errors" (PyDict []) ;;
    raise (SmartleadAPIError (status_code response) error_message error_details)
  else ret response_data.

Definition _request (self : SmartleadClient) (method endpoint : string)
    (params : option loc) (json_data : option value)
    (headers : option (gmap string string)) : M value :=
  let url := join_url (api_url self) endpoint in
  params <- match params with
            | None => new_dict []
            | Some l => ret l
            end ;;
  store_setitem params "api_key" (PyStr (api_key self)) ;;;
  let default_headers := merge_headers headers in
  try_except
    (chosen <- match http_client self with
               | Some c => ret (c, false)
               | None =>
                   let c := Transient (timeout self) in
                   emit (Opened c) ;;; ret (c, true)
               end ;;
     let client := fst chosen in
     let close_client := snd chosen in
     try_finally
       (query <- read_dict params ;;
        response <- client_request client
                      (mkRequest method url query json_data default_headers) ;;
        decode response)
       (if close_client : bool then aclose client else ret tt))
    is_RequestError
    (fun e =>
       raise (SmartleadAPIError 500 (PyStr ("Request error: " +:+ str_exn e)) PyNone)).

Definition list_campaigns (self : SmartleadClient) : M value :=
  _request self "GET" "campaigns/" None None None.

Definition get_campaign (self : SmartleadClient) (campaign : string) : M value :=
  _request self "GET" ("campaigns/" +:+ campaign) None None None.

Definition create_campaign (self : SmartleadClient) (campaign_data : dict) : M value :=
  _request self "POST" "campaigns/create" None (Some (PyDict campaign_data)) None.

(** The body [update_campaign_schedule] builds. *)
Definition schedule_data (timezone : string) (days_of_the_week : list Z)
    (start_hour end_hour : string)
    (min_time_btw_emails max_new_leads_per_day : option Z)
    (schedule_start_time : option string) : dict :=
  let data := [("timezone", PyStr timezone);
               ("days_of_the_week", PyInts days_of_the_week);
               ("start_hour", PyStr start_hour);
               ("end_hour", PyStr end_hour)] in
  let data := set_if_not_None "min_time_btw_emails" PyInt min_time_btw_emails data in
  let data := set_if_not_None "max_new_leads_per_day" PyInt max_new_leads_per_day data in
  let data := set_if_not_None "schedule_start_time" PyStr schedule_start_time data in
  data.

Definition update_campaign_schedule (self : SmartleadClient) (campaign_id : string)
    (timezone : string) (days_of_the_week : list Z) (start_hour end_hour : string)
    (min_time_btw_emails max_new_leads_per_day : option Z)
    (schedule_start_time : option string) : M value :=
  let data := schedule_data timezone days_of_the_week start_hour end_hour
                min_time_btw_emails max_new_leads_per_day schedule_start_time in
  _request self "POST" ("campaigns/" +:+ campaign_id +:+ "/schedule")
    None (Some (PyDict data)) None.

(** The body [update_campaign_settings] builds. *)
Definition settings_data (name : option string) (track_settings : option (list string))
    (stop_lead_settings unsubscribe_text : option string)
    (send_as_plain_text force_plain_text enable_ai_esp_matching : option bool)
    (follow_up_percentage client_id : option Z)
    (add_unsubscribe_tag auto_pause_domain_leads_on_reply
       ignore_ss_mailbox_sending_limit : option bool)
    (bounce_autopause_threshold : option string)
    (out_of_office_detection_settings : option dict)
    (ai_categorisation_options : option (list Z)) : dict :=
  let data := [] in
  let data := set_if_not_None "name" PyStr name data in
  let data := set_if_not_None "track_settings" PyStrs track_settings data in
  let data := set_if_not_None "stop_lead_settings" PyStr stop_lead_settings data in
  let data := set_if_not_None "unsubscribe_text" PyStr unsubscribe_text data in
  let data := set_if_not_None "send_as_plain_text" PyBool send_as_plain_text data in
  let data := set_if_not_None "force_plain_text" PyBool force_plain_text data in
  let data := set_if_not_None "enable_ai_esp_matching" PyBool enable_ai_esp_matching data in
  let data := set_if_not_None "follow_up_percentage" PyInt follow_up_percentage data in
  let data := set_if_not_None "client_id" PyInt client_id data in
  let data := set_if_not_None "add_unsubscribe_tag" PyBool add_unsubscribe_tag data in
  let data := set_if_not_None "auto_pause_domain_leads_on_reply" PyBool
                auto_pause_domain_leads_on_reply data in
  let data := set_if_not_None "ignore_ss_mailbox_sending_limit" PyBool
                ignore_ss_mailbox_sending_limit data in
  let data := set_if_not_None "bounce_autopause_threshold" PyStr
                bounce_autopause_threshold data in
  let data := set_if_not_None "out_of_office_detection_settings" PyDict
                out_of_office_detection_settings data in
  let data := set_if_not_None "ai_categorisation_options" PyInts
                ai_categorisation_options data in
  data.

Definition update_campaign_settings (self : SmartleadClient) (campaign_id : string)
    (name : option string) (track_settings : option (list string))
    (stop_lead_settings unsubscribe_text : option string)
    (send_as_plain_text force_plain_text enable_ai_esp_matching : option bool)
    (follow_up_percentage client_id : option Z)
    (add_unsubscribe_tag auto_pause_domain_leads_on_reply
       ignore_ss_mailbox_sending_limit : option bool)
    (bounce_autopause_threshold : option string)
    (out_of_office_detection_settings : option dict)
    (ai_categorisation_options : option (list Z)) : M value :=
  let data := settings_data name track_settings stop_lead_settings unsubscribe_text
                send_as_plain_text force_plain_text enable_ai_esp_matching
                follow_up_percentage client_id add_unsubscribe_tag
                auto_pause_domain_leads_on_reply ignore_ss_mailbox_sending_limit
                bounce_autopause_threshold out_of_office_detection_settings
                ai_categorisation_options in
  _request self "POST" ("campaigns/" +:+ campaign_id +:+ "/settings")
    None (Some (PyDict data)) None.

Definition save_campaign_sequence (self : SmartleadClient) (campaign_id : string)
    (sequences : list dict) : M value :=
  let data := [("sequences", PyList (map PyDict sequences))] in
  _request self "POST" ("campaigns/" +:+ campaign_id +:+ "/sequences")
    None (Some (PyDict data)) None.

Definition patch_campaign_status (self : SmartleadClient) (campaign_id status : string)
  : M value :=
  let data := [("status", PyStr status)] in
  _request self "POST" ("campaigns/" +:+ campaign_id +:+ "/status")
    None (Some (PyDict data)) None.

Definition get_campaign_analytics (self : SmartleadClient)
    (campaignId start_date end_date : string) : M value :=
  params <- new_dict [("start_date", PyStr start_date); ("end_date", PyStr end_date)] ;;
  _request self "GET" ("campaigns/" +:+ campaignId +:+ "/analytics-by-date")
    (Some params) None None.

Definition get_campaign_sequence (self : SmartleadClient) (campaign_id : string)
  : M value :=
  _request self "GET" ("campaigns/" +:+ campaign_id +:+ "/sequences") None None None.

Definition get_campaigns_by_lead_id (self : SmartleadClient) (lead_id : string)
  : M value :=
  _request self "GET" ("leads/" +:+ lead_id +:+ "/campaigns") None None None.

Definition export_campaign_data (self : SmartleadClient) (campaign_id : string)
  : M value :=
  let headers : gmap string string := {["Accept" := "text/plain"]} in
  _request self "GET" ("campaigns/" +:+ campaign_id +:+ "/leads-export")
    None None (Some headers).

(** The query [get_campaign_sequence_analytics] builds: [time_zone]
    goes in under [if time_zone:]. *)
Definition sequence_analytics_params (start_date end_date : string)
    (time_zone : option string) : dict :=
  let params := [("start_date", PyStr start_date); ("end_date", PyStr end_date)] in
  match time_zone with
  | Some tz => if truthy (PyStr tz) then dict_setitem "time_zone" (PyStr tz) params
               else params
  | None => params
  end.

Definition get_campaign_sequence_analytics (self : SmartleadClient)
    (campaign_id start_date end_date : string) (time_zone : option string) : M value :=
  params <- new_dict (sequence_analytics_params start_date end_date time_zone) ;;
  _request self "GET" ("campaigns/" +:+ campaign_id +:+ "/sequence-analytics")
    (Some params) None None.
End Client.

(** ** [utils.py]: helpers of the tool surface *)

(** [os.environ] *)
Abbreviation environ := (gmap string string).

(** [os.getenv(var)] is falsy: unset, or set to the empty text. *)
Definition unset (env : environ) (var : string) : bool :=
  match env !! var with
  | Some v => String.eqb v ""
  | None => true
  end.

Definition validate_environment (env : environ) : M unit :=
  let required_vars := ["SMARTLEAD_API_KEY"] in
  let missing_vars := List.filter (unset env) required_vars in
  match missing_vars with
  | [] => ret tt
  | _ => raise (ValueError ("Missing required environment variables: "
                            +:+ join ", " missing_vars))
  end.

Definition format_response (data : value) : string :=
  if is_dict_or_list data then json_dumps false None data
  else py_str data.

(** What the attribute [smartlead_client] of a lifespan context may
    hold: a [SmartleadClient], or an object of some other class. *)
Inductive object : Type :=
| ClientObject (c : SmartleadClient)
| ForeignObject (v : value).

(** An attribute that [hasattr] does not find is [None] here. *)
Record LifespanContext : Type := mkLifespanContext {
  smartlead_client : option object
}.

Record RequestContext : Type := mkRequestContext {
  lifespan_context : option LifespanContext
}.

Record Context : Type := mkContext {
  request_context : RequestContext
}.

Definition get_client_from_context (ctx : Context) : M SmartleadClient :=
  match lifespan_context (request_context ctx) with
  | None => raise (ValueError "Request context not properly initialized")
  | Some lifespan =>
      match smartlead_client lifespan with
      | None => raise (ValueError "Smartlead client not found in context")
      | Some (ForeignObject _) => raise (ValueError "Invalid Smartlead client type in context")
      | Some (ClientObject client) => ret client
      end
  end.

Definition handle_api_error (e : exn) : string :=
  match e with
  | SmartleadAPIError status_code message details =>
      let error_msg := "Error (" +:+ str_int status_code +:+ "): " +:+ py_str message in
      if truthy details
      then error_msg +:+ String newline "Details: " +:+ json_dumps true (Some 2%nat) details
      else error_msg
  | _ => "Error: " +:+ str_exn e
  end.

(** The attributes of the class [SmartleadClient]: the dataclass fields
    and the methods it defines. *)
Definition SmartleadClient_attributes : list string :=
  ["api_key"; "api_url"; "timeout"; "http_client";
   "_request"; "list_campaigns"; "get_campaign"; "create_campaign";
   "update_campaign_schedule"; "update_campaign_settings";
   "save_campaign_sequence"; "patch_campaign_status"; "get_campaign_analytics";
   "get_campaign_sequence"; "get_campaigns_by_lead_id"; "export_campaign_data";
   "get_campaign_sequence_analytics"].

(** [self.<name>] on a [SmartleadClient]: the attribute, or the
    [AttributeError] Python raises for a name the class does not have. *)
Definition getattr_SmartleadClient (name : string) : M string :=
  if existsb (String.eqb name) SmartleadClient_attributes then ret name
  else raise (AttributeError ("'SmartleadClient' object has no attribute '"
                              +:+ name +:+ "'")).

(** ** [main.py]: lifespan and tools *)

Module Main.
Section Tools.
Variable network : Request -> reply.

(** The part of [smartlead_lifespan] before [yield]. *)
Definition startup (env : environ) : M SmartleadClient :=
  validate_environment env ;;;
  let api_key := default "" (env !! "SMARTLEAD_API_KEY") in
  let api_url := default default_api_url (env !! "SMARTLEAD_API_URL") in
  ret (new_SmartleadClient api_key api_url).

(** [await smartlead_client.close()], the [finally] block. *)
Definition shutdown (smartlead_client : SmartleadClient) : M unit :=
  getattr_SmartleadClient "close" ;;; ret tt.

(** The context manager around [serve], the run of the server between
    startup and shutdown. *)
Definition smartlead_lifespan {A} (env : environ) (serve : LifespanContext -> M A) : M A :=
  smartlead_client <- startup env ;;
  try_finally
    (serve (mkLifespanContext (Some (ClientObject smartlead_client))))
    (shutdown smartlead_client).

(** The body every tool shares:
    [try: client = ...; response = ...; return format_response(response)]
    [except Exception as e: return handle_api_error(e)]. *)
Definition tool (ctx : Context) (operation : SmartleadClient -> M value) : M string :=
  try_except
    (client <- get_client_from_context ctx ;;
     response <- operation client ;;
     ret (format_response response))
    Exception
    (fun e => ret (handle_api_error e)).

Definition list_campaigns (ctx : Context) : M string :=
  tool ctx (fun client => list_campaigns network client).

Definition get_campaign (ctx : Context) (campaign : string) : M string :=
  tool ctx (fun client => get_campaign network client campaign).

Definition create_campaign (ctx : Context) (campaign_data : dict) : M string :=
  tool ctx (fun client => create_campaign network client campaign_data).

Definition update_campaign_schedule (ctx : Context) (campaign_id : string)
    (timezone : string) (days_of_the_week : list Z) (start_hour end_hour : string)
    (min_time_btw_emails max_new_leads_per_day : option Z)
    (schedule_start_time : option string) : M string :=
  tool ctx (fun client =>
    update_campaign_schedule network client campaign_id timezone days_of_the_week
      start_hour end_hour min_time_btw_emails max_new_leads_per_day
      schedule_start_time).

Definition update_campaign_settings (ctx : Context) (campaign_id : string)
    (name : option string) (track_settings : option (list string))
    (stop_lead_settings unsubscribe_text : option string)
    (send_as_plain_text force_plain_text enable_ai_esp_matching : option bool)
    (follow_up_percentage client_id : option Z)
    (add_unsubscribe_tag auto_pause_domain_leads_on_reply
       ignore_ss_mailbox_sending_limit : option bool)
    (bounce_autopause_threshold : option string)
    (out_of_office_detection_settings : option dict)
    (ai_categorisation_options : option (list Z)) : M string :=
  tool ctx (fun client =>
    update_campaign_settings network client campaign_id name track_settings
      stop_lead_settings unsubscribe_text send_as_plain_text force_plain_text
      enable_ai_esp_matching follow_up_percentage client_id add_unsubscribe_tag
      auto_pause_domain_leads_on_reply ignore_ss_mailbox_sending_limit
      bounce_autopause_threshold out_of_office_detection_settings
      ai_categorisation_options).

Definition save_campaign_sequence (ctx : Context) (campaign_id : string)
    (sequences : list dict) : M string :=
  tool ctx (fun client => save_campaign_sequence network client campaign_id sequences).

Definition patch_campaign_status (ctx : Context) (campaign_id status : string)
  : M string :=
  tool ctx (fun client => patch_campaign_status network client campaign_id status).

Definition get_campaign_analytics (ctx : Context)
    (campaignId start_date end_date : string) : M string :=
  tool ctx (fun client =>
    get_campaign_analytics network client campaignId start_date end_date).

Definition get_campaign_sequence (ctx : Context) (campaign_id : string) : M string :=
  tool ctx (fun client => get_campaign_sequence network client campaign_id).

Definition get_campaigns_by_lead_id (ctx : Context) (lead_id : string) : M string :=
  tool ctx (fun client => get_campaigns_by_lead_id network client lead_id).

Definition export_campaign_data (ctx : Context) (campaign_id : string) : M string :=
  tool ctx (fun client => export_campaign_data network client campaign_id).

Definition get_campaign_sequence_analytics (ctx : Context)
    (campaign_id start_date end_date : string) (time_zone : option string) : M string :=
  tool ctx (fun client =>
    get_campaign_sequence_analytics network client campaign_id start_date end_date
      time_zone).

(** A call of one of the registered tools, with its arguments. *)
Inductive invocation : Type :=
| ListCampaigns
| GetCampaign (campaign : string)
| CreateCampaign (campaign_data : dict)
| UpdateCampaignSchedule (campaign_id : string) (timezone : string)
    (days_of_the_week : list Z) (start_hour end_hour : string)
    (min_time_btw_emails max_new_leads_per_day : option Z)
    (schedule_start_time : option string)
| UpdateCampaignSettings (campaign_id : string)
    (name : option string) (track_settings : option (list string))
    (stop_lead_settings unsubscribe_text : option string)
    (send_as_plain_text force_plain_text enable_ai_esp_matching : option bool)
    (follow_up_percentage client_id : option Z)
    (add_unsubscribe_tag auto_pause_domain_leads_on_reply
       ignore_ss_mailbox_sending_limit : option bool)
    (bounce_autopause_threshold : option string)
    (out_of_office_detection_settings : option dict)
    (ai_categorisation_options : option (list Z))
| SaveCampaignSequence (campaign_id : string) (sequences : list dict)
| PatchCampaignStatus (campaign_id status : string)
| GetCampaignAnalytics (campaignId start_date end_date : string)
| GetCampaignSequence (campaign_id : string)
| GetCampaignsByLeadId (lead_id : string)
| ExportCampaignData (campaign_id : string)
| GetCampaignSequenceAnalytics (campaign_id start_date end_date : string)
    (time_zone : option string).

(** The server runs the tool that the call names. *)
Definition invoke (ctx : Context) (call : invocation) : M string :=
  match call with
  | ListCampaigns => list_campaigns ctx
  | GetCampaign campaign => get_campaign ctx campaign
  | CreateCampaign campaign_data => create_campaign ctx campaign_data
  | UpdateCampaignSchedule campaign_id timezone days_of_the_week start_hour end_hour
      min_time_btw_emails max_new_leads_per_day schedule_start_time =>
      update_campaign_schedule ctx campaign_id timezone days_of_the_week start_hour
        end_hour min_time_btw_emails max_new_leads_per_day schedule_start_time
  | UpdateCampaignSettings campaign_id name track_settings stop_lead_settings
      unsubscribe_text send_as_plain_text force_plain_text enable_ai_esp_matching
      follow_up_percentage client_id add_unsubscribe_tag
      auto_pause_domain_leads_on_reply ignore_ss_mailbox_sending_limit
      bounce_autopause_threshold out_of_office_detection_settings
      ai_categorisation_options =>
      update_campaign_settings ctx campaign_id name track_settings stop_lead_settings
        unsubscribe_text send_as_plain_text force_plain_text enable_ai_esp_matching
        follow_up_percentage client_id add_unsubscribe_tag
        auto_pause_domain_leads_on_reply ignore_ss_mailbox_sending_limit
        bounce_autopause_threshold out_of_office_detection_settings
        ai_categorisation_options
  | SaveCampaignSequence campaign_id sequences =>
      save_campaign_sequence ctx campaign_id sequences
  | PatchCampaignStatus campaign_id status => patch_campaign_status ctx campaign_id status
  | GetCampaignAnalytics campaignId start_date end_date =>
      get_campaign_analytics ctx campaignId start_date end_date
  | GetCampaignSequence campaign_id => get_campaign_sequence ctx campaign_id
  | GetCampaignsByLeadId lead_id => get_campaigns_by_lead_id ctx lead_id
  | ExportCampaignData campaign_id => export_campaign_data ctx campaign_id
  | GetCampaignSequenceAnalytics campaign_id start_date end_date time_zone =>
      get_campaign_sequence_analytics ctx campaign_id start_date end_date time_zone
  end.
End Tools.
End Main.

(** ** Observations used in the statements *)

(** The requests a world's log records, oldest first. *)
Definition sent_requests (w : world) : list Request :=
  omap (fun ev => match ev with Requested _ r => Some r | _ => None end) (log w).

(** The run of [n] slashes that a strip removes. *)
Fixpoint slashes (n : nat) : string :=
  match n with
  | O => ""
  | S m => String slash (slashes m)
  end.

Definition first_char (s : string) : option ascii :=
  match s with
  | String c _ => Some c
  | EmptyString => None
  end.

Fixpoint last_char (s : string) : option ascii :=
  match s with
  | EmptyString => None
  | String c EmptyString => Some c
  | String _ rest => last_char rest
  end.

(** The request [_request] hands to the connection when the dictionary
    it was given holds [given] (nothing, for [params=None]). *)
Definition issued (self : SmartleadClient) (method endpoint : string) (given : dict)
    (json_data : option value) (headers : option (gmap string string)) : Request :=
  mkRequest method (join_url (api_url self) endpoint)
    (dict_setitem "api_key" (PyStr (api_key self)) given) json_data (merge_headers headers).

(** What the connection logs for one call of [_request]. *)
Definition exchange (self : SmartleadClient) (r : Request) : list event :=
  match http_client self with
  | Some c => [Requested c r]
  | None => [Opened (Transient (timeout self)); Requested (Transient (timeout self)) r;
             Closed (Transient (timeout self))]
  end.

(** What [_request] makes of the network's reply. *)
Definition settle (answer : reply) : outcome value :=
  match answer with
  | Responds response => fst (decode response (mkWorld ∅ []))
  | Fails e =>
      if is_RequestError e
      then Raises (SmartleadAPIError 500 (PyStr ("Request error: " +:+ str_exn e)) PyNone)
      else Raises e
  end.

(** The client method a tool call runs. *)
Definition operation (network : Request -> reply) (call : Main.invocation)
    (client : SmartleadClient) : M value :=
  match call with
  | Main.ListCampaigns => list_campaigns network client
  | Main.GetCampaign campaign => get_campaign network client campaign
  | Main.CreateCampaign campaign_data => create_campaign network client campaign_data
  | Main.UpdateCampaignSchedule campaign_id timezone days_of_the_week start_hour end_hour
      min_time_btw_emails max_new_leads_per_day schedule_start_time =>
      update_campaign_schedule network client campaign_id timezone days_of_the_week
        start_hour end_hour min_time_btw_emails max_new_leads_per_day schedule_start_time
  | Main.UpdateCampaignSettings campaign_id name track_settings stop_lead_settings
      unsubscribe_text send_as_plain_text force_plain_text enable_ai_esp_matching
      follow_up_percentage client_id add_unsubscribe_tag
      auto_pause_domain_leads_on_reply ignore_ss_mailbox_sending_limit
      bounce_autopause_threshold out_of_office_detection_settings
      ai_categorisation_options =>
      update_campaign_settings network client campaign_id name track_settings
        stop_lead_settings unsubscribe_text send_as_plain_text force_plain_text
        enable_ai_esp_matching follow_up_percentage client_id add_unsubscribe_tag
        auto_pause_domain_leads_on_reply ignore_ss_mailbox_sending_limit
        bounce_autopause_threshold out_of_office_detection_settings
        ai_categorisation_options
  | Main.SaveCampaignSequence campaign_id sequences =>
      save_campaign_sequence network client campaign_id sequences
  | Main.PatchCampaignStatus campaign_id status =>
      patch_campaign_status network client campaign_id status
  | Main.GetCampaignAnalytics campaignId start_date end_date =>
      get_campaign_analytics network client campaignId start_date end_date
  | Main.GetCampaignSequence campaign_id => get_campaign_sequence network client campaign_id
  | Main.GetCampaignsByLeadId lead_id => get_campaigns_by_lead_id network client lead_id
  | Main.ExportCampaignData campaign_id => export_campaign_data network client campaign_id
  | Main.GetCampaignSequenceAnalytics campaign_id start_date end_date time_zone =>
      get_campaign_sequence_analytics network client campaign_id start_date end_date
        time_zone
  end.

(** The three contexts [get_client_from_context] turns down. *)
Definition no_lifespan_context : Context := mkContext (mkRequestContext None).

Definition no_client_attribute : Context :=
  mkContext (mkRequestContext (Some (mkLifespanContext None))).

Definition foreign_client (v : value) : Context :=
  mkContext (mkRequestContext (Some (mkLifespanContext (Some (ForeignObject v))))).

(** A network that answers every request with [response]. *)
Definition answering (response : Response) : Request -> reply :=
  fun _ => Responds response.

(** A network on which every request fails with [e]. *)
Definition failing (e : exn) : Request -> reply := fun _ => Fails e.

(** The data [_request] reads from a response: the decoded body, or the
    raw text under ["message"]. *)
Definition response_data (response : Response) : value :=
  match json_body response with
  | Some v => v
  | None => PyDict [("message", PyStr (text response))]
  end.

Definition is_dict (v : value) : bool :=
  match v with PyDict _ => true | _ => false end.

(** Sample inputs. *)
Definition sample_client : SmartleadClient :=
  new_SmartleadClient "KEY" default_api_url.

(** Status 404 with the JSON body [[]]. *)
Definition not_found_with_array : Response := mkResponse 404 "[]" (Some (PyList [])).

(** Status 200 with the JSON body of a successful update. *)
Definition ok_true : Response :=
  mkResponse 200 (json_dumps false None (PyDict [("ok", PyBool true)]))
    (Some (PyDict [("ok", PyBool true)])).

(** Status 200 with the JSON body [true]. *)
Definition ok_with_true : Response := mkResponse 200 "true" (Some (PyBool true)).

(** No entry of the dictionary holds [None]. *)
Definition no_None (d : dict) : Prop := Forall (fun kv => snd kv <> PyNone) d.

(** A store whose object 1 is a caller's query with an [api_key] of its
    own. *)
Definition caller_query : dict := [("api_key", PyStr "mine"); ("page", PyInt 2)].

Definition caller_world : world := mkWorld {[ 1%positive := caller_query ]} [].

(** An environment with the API key set. *)
Definition sample_environ : environ := {[ "SMARTLEAD_API_KEY" := "KEY" ]}.

(** Status 404 with a JSON object that has a message and no errors. *)
Definition not_found_with_message : Response :=
  mkResponse 404 (json_dumps false None (PyDict [("message", PyStr "Campaign not found")]))
    (Some (PyDict [("message", PyStr "Campaign not found")])).

(** Every character of the text is an ASCII one. *)
Fixpoint is_ascii (s : string) : bool :=
  match s with
  | EmptyString => true
  | String c rest => (N_of_ascii c <? 128)%N && is_ascii rest
  end.

(** A world with no objects and nothing logged. *)
Definition empty_world : world := mkWorld ∅ [].

(** The context the lifespan hands to the tools. *)
Definition context_of (client : SmartleadClient) : Context :=
  mkContext (mkRequestContext (Some (mkLifespanContext (Some (ClientObject client))))).


(** * Properties *)

(** ** Stripping slashes *)

Lemma lstrip_slash_spec (s : string) :
  ∃ n, s = slashes n +:+ lstrip_slash s ∧ first_char (lstrip_slash s) ≠ Some slash.
Proof.
  induction s as [|c rest [n [Hrest Hfirst]]]; simpl.
  - exists 0%nat. split; [reflexivity | discriminate].
  - destruct (Ascii.eqb_spec c slash) as [->|Hc].
    + exists (S n). split; [rewrite Hrest at 1; reflexivity | assumption].
    + exists 0%nat. simpl. split; [reflexivity | congruence].
Qed.

Lemma rstrip_slash_spec (s : string) :
  ∃ n, s = rstrip_slash s +:+ slashes n ∧ last_char (rstrip_slash s) ≠ Some slash.
Proof.
  induction s as [|c rest [n [Hrest Hlast]]]; simpl.
  - exists 0%nat. split; [reflexivity | discriminate].
  - destruct (rstrip_slash rest) as [|a kept] eqn:Hkept.
    + destruct (Ascii.eqb_spec c slash) as [->|Hc].
      * exists (S n). split; [rewrite Hrest at 1; reflexivity | discriminate].
      * exists n. split; [rewrite Hrest at 1; reflexivity | simpl; congruence].
    + exists n. split; [rewrite Hrest at 1; reflexivity | exact Hlast].
Qed.

Lemma append_empty_r (s : string) : s +:+ "" = s.
Proof. induction s as [|c rest IH]; [reflexivity | by rewrite <- IH at 2]. Qed.

(** ** Running computations *)

Ltac run :=
  unfold bind, ret, raise, try_except, try_finally, emit, new_dict, read_dict,
    store_setitem, client_request, aclose; simpl.

Lemma py_get_pure (v : value) (k : string) (fallback : value) (w : world) :
  py_get v k fallback w = (fst (py_get v k fallback (mkWorld ∅ [])), w).
Proof. destruct v; reflexivity. Qed.

Lemma decode_pure (response : Response) (w : world) :
  decode response w = (fst (decode response (mkWorld ∅ [])), w).
Proof.
  unfold decode.
  destruct (400 <=? status_code response)%Z; [|reflexivity].
  unfold bind.
  set (data := match json_body response with Some v => v | None => _ end).
  rewrite (py_get_pure data "message" _ w), (py_get_pure data "message" _ (mkWorld ∅ [])).
  destruct (fst (py_get data "message" _ _)); simpl; [|reflexivity].
  rewrite (py_get_pure data "errors" _ w), (py_get_pure data "errors" _ (mkWorld ∅ [])).
  destruct (fst (py_get data "errors" _ _)); reflexivity.
Qed.

(** [decode] raises no [httpx.RequestError]. *)
Lemma decode_not_RequestError (response : Response) (w : world) (e : exn) :
  fst (decode response w) = Raises e → is_RequestError e = false.
Proof.
  unfold decode.
  destruct (400 <=? status_code response)%Z; [|discriminate].
  set (data := match json_body response with Some v => v | None => _ end).
  unfold bind.
  destruct data; simpl; intros [= <-]; reflexivity.
Qed.

(** One call of [_request], in full: the outcome, the store and the
    log it leaves. *)
Lemma _request_run (network : Request → reply) (self : SmartleadClient)
    (method endpoint : string) (ref : option loc) (json_data : option value)
    (headers : option (gmap string string)) (w : world) :
  let l := match ref with Some l => l | None => fresh (dom (heap w)) end in
  let given := match ref with Some l => default [] (heap w !! l) | None => [] end in
  let r := issued self method endpoint given json_data headers in
  _request network self method endpoint ref json_data headers w =
    (settle (network r),
     mkWorld (<[l := params r]> (heap w)) (log w ++ exchange self r)).
Proof.
  intros l given r. subst l given r.
  unfold _request, exchange, settle, issued.
  destruct ref as [l0|], (http_client self) as [c|]; run;
    rewrite ?lookup_insert_eq, ?insert_insert_eq; simpl;
    match goal with |- context [network ?q] => destruct (network q) as [response|e] end;
    simpl; rewrite <- ?app_assoc; simpl;
    try (rewrite decode_pure; simpl; rewrite <- ?app_assoc; simpl;
         destruct (fst (decode response _)) as [v|e] eqn:Hd; simpl;
         [reflexivity | by rewrite (decode_not_RequestError _ _ _ Hd)]);
    destruct (is_RequestError e); reflexivity.
Qed.

Lemma sent_requests_exchange (h : gmap loc dict) (events : list event)
    (self : SmartleadClient) (r : Request) :
  sent_requests (mkWorld h (events ++ exchange self r))
  = (sent_requests (mkWorld h events) ++ [r])%list.
Proof.
  unfold sent_requests, exchange. simpl. rewrite omap_app.
  by destruct (http_client self).
Qed.

(** Every client method is one call of [_request]: it settles the
    network's reply to the request it logs. *)
Lemma operation_run (network : Request → reply) (call : Main.invocation)
    (client : SmartleadClient) (w : world) :
  ∃ r : Request,
    fst (operation network call client w) = settle (network r)
    ∧ sent_requests (snd (operation network call client w)) = (sent_requests w ++ [r])%list.
Proof.
  destruct call; simpl;
    unfold list_campaigns, get_campaign, create_campaign, update_campaign_schedule,
      update_campaign_settings, save_campaign_sequence, patch_campaign_status,
      get_campaign_analytics, get_campaign_sequence, get_campaigns_by_lead_id,
      export_campaign_data, get_campaign_sequence_analytics;
    unfold bind, new_dict; rewrite _request_run; simpl;
    eexists; (split; [reflexivity | by rewrite sent_requests_exchange]).
Qed.

(** ** The tool boundary *)

Lemma invoke_tool (network : Request → reply) (ctx : Context) (call : Main.invocation) :
  Main.invoke network ctx call = Main.tool ctx (operation network call).
Proof. destruct call; reflexivity. Qed.

Lemma tool_run (ctx : Context) (op : SmartleadClient → M value) (w : world) :
  Main.tool ctx op w =
    match get_client_from_context ctx w with
    | (Returns client, w1) =>
        match op client w1 with
        | (Returns response, w2) => (Returns (format_response response), w2)
        | (Raises e, w2) => (Returns (handle_api_error e), w2)
        end
    | (Raises e, w1) => (Returns (handle_api_error e), w1)
    end.
Proof.
  unfold Main.tool, try_except, bind.
  destruct (get_client_from_context ctx w) as [[client|e] w1]; [|reflexivity].
  by destruct (op client w1) as [[response|e] w2].
Qed.

Lemma tool_with_client (client : SmartleadClient) (op : SmartleadClient → M value)
    (w : world) :
  fst (Main.tool (context_of client) op w) =
    match fst (op client w) with
    | Returns response => Returns (format_response response)
    | Raises e => Returns (handle_api_error e)
    end.
Proof.
  rewrite tool_run. simpl. unfold ret.
  by destruct (op client w) as [[response|e] w2].
Qed.

Lemma handle_api_error_starts_with_Error (e : exn) :
  ∃ rest, handle_api_error e = "Error" +:+ rest.
Proof.
  destruct e as [status message details|msg|msg|msg|msg]; simpl;
    [destruct (truthy details)|..]; eexists; reflexivity.
Qed.

(** C1.  Whatever the context, the network and the call, a tool hands
    back a string and raises nothing: the formatted response when
    context resolution and the client call return, and otherwise the
    text [handle_api_error] makes of the exception raised, which starts
    with ["Error"].  With a request context that has no lifespan
    context, a lifespan context that has no [smartlead_client], or a
    [smartlead_client] that is not a [SmartleadClient], that text is
    ["Error: "] followed by the message of the configuration error, and
    nothing was sent. *)
Theorem tools_return_error_strings (network : Request → reply)
    (call : Main.invocation) (w : world) :
  (∀ ctx, ∃ s w', Main.invoke network ctx call w = (Returns s, w'))
  ∧ (∀ ctx,
       Main.invoke network ctx call w
       = match (client <- get_client_from_context ctx ;;
                operation network call client) w with
         | (Returns response, w') => (Returns (format_response response), w')
         | (Raises e, w') => (Returns (handle_api_error e), w')
         end)
  ∧ (∀ e, ∃ rest, handle_api_error e = "Error" +:+ rest)
  ∧ Main.invoke network no_lifespan_context call w
    = (Returns "Error: Request context not properly initialized", w)
  ∧ Main.invoke network no_client_attribute call w
    = (Returns "Error: Smartlead client not found in context", w)
  ∧ (∀ v, Main.invoke network (foreign_client v) call w
          = (Returns "Error: Invalid Smartlead client type in context", w)).
Proof.
  split; [|split; [|split; [exact handle_api_error_starts_with_Error|]]].
  - intros ctx. rewrite invoke_tool, tool_run.
    destruct (get_client_from_context ctx w) as [[client|e] w1]; [|by eauto].
    destruct (operation network call client w1) as [[response|e] w2]; by eauto.
  - intros ctx. rewrite invoke_tool, tool_run. unfold bind.
    by destruct (get_client_from_context ctx w) as [[client|e] w1].
  - repeat split; intros; rewrite invoke_tool, tool_run; reflexivity.
Qed.

(** ** Dictionaries *)

Lemma lookup_setitem (k k' : string) (v : value) (d : dict) :
  dict_lookup k (dict_setitem k' v d)
  = if String.eqb k k' then Some v else dict_lookup k d.
Proof.
  induction d as [|[k0 v0] rest IH]; simpl.
  - by destruct (String.eqb k k').
  - destruct (String.eqb_spec k' k0) as [->|Hk0]; simpl.
    + by destruct (String.eqb k k0).
    + rewrite IH. destruct (String.eqb_spec k k0) as [->|]; [|reflexivity].
      destruct (String.eqb_spec k0 k'); congruence.
Qed.

Lemma keys_setitem (k k' : string) (v : value) (d : dict) :
  k ∈ dict_keys (dict_setitem k' v d) ↔ k = k' ∨ k ∈ dict_keys d.
Proof.
  unfold dict_keys. induction d as [|[k0 v0] rest IH]; simpl.
  - rewrite list_elem_of_singleton, elem_of_nil. tauto.
  - destruct (String.eqb_spec k' k0) as [->|Hk0]; simpl.
    + rewrite !elem_of_cons. tauto.
    + rewrite !elem_of_cons, IH. tauto.
Qed.

Lemma no_None_setitem (k : string) (v : value) (d : dict) :
  v ≠ PyNone → no_None d → no_None (dict_setitem k v d).
Proof.
  intros Hv. unfold no_None. induction 1 as [|[k0 v0] rest H0 Hrest IH]; simpl.
  - by repeat constructor.
  - destruct (String.eqb k k0); constructor; auto.
Qed.

Lemma lookup_set_if_not_None {A} (k k' : string) (inj : A → value) (arg : option A)
    (d : dict) :
  dict_lookup k (set_if_not_None k' inj arg d)
  = if String.eqb k k'
    then match arg with Some a => Some (inj a) | None => dict_lookup k d end
    else dict_lookup k d.
Proof.
  destruct arg as [a|]; simpl.
  - apply lookup_setitem.
  - by destruct (String.eqb k k').
Qed.

Lemma keys_set_if_not_None {A} (k k' : string) (inj : A → value) (arg : option A)
    (d : dict) :
  k ∈ dict_keys (set_if_not_None k' inj arg d)
  ↔ k ∈ dict_keys d ∨ (k = k' ∧ is_Some arg).
Proof.
  destruct arg as [a|]; simpl.
  - rewrite keys_setitem. split; [intros [->|?]; eauto | intros [?|[-> _]]; auto].
  - split; [auto | intros [?|[_ [? [=]]]]; auto].
Qed.

Lemma no_None_set_if_not_None {A} (k : string) (inj : A → value) (arg : option A)
    (d : dict) :
  (∀ a, inj a ≠ PyNone) → no_None d → no_None (set_if_not_None k inj arg d).
Proof. intros Hinj Hd. destruct arg; [by apply no_None_setitem | exact Hd]. Qed.

Create HintDb py_values.
#[local] Hint Resolve no_None_set_if_not_None : py_values.
#[local] Hint Extern 1 (∀ _, _ ≠ PyNone) => (intros ?; discriminate) : py_values.
#[local] Hint Extern 1 (no_None _) => (by repeat constructor) : py_values.

(** ** Errors *)

Lemma settle_success (response : Response) :
  (status_code response < 400)%Z →
  settle (Responds response) = Returns (response_data response).
Proof.
  intros Hstatus. unfold settle, decode. fold (response_data response).
  destruct (Z.leb_spec 400 (status_code response)); [lia | reflexivity].
Qed.

(** An error status with a [dict] for data raises the structured error. *)
Lemma settle_error_status (response : Response) (items : dict) :
  (400 <= status_code response)%Z →
  response_data response = PyDict items →
  settle (Responds response)
  = Raises (SmartleadAPIError (status_code response)
              (default (PyStr "Unknown error") (dict_lookup "message" items))
              (default (PyDict []) (dict_lookup "errors" items))).
Proof.
  intros Hstatus Hdata. unfold settle, decode. fold (response_data response).
  rewrite Hdata.
  destruct (Z.leb_spec 400 (status_code response)); [reflexivity | lia].
Qed.

(** An error status with anything else for data raises
    [AttributeError]: the data has no [get]. *)
Lemma settle_error_status_no_get (response : Response) :
  (400 <= status_code response)%Z →
  is_dict (response_data response) = false →
  settle (Responds response)
  = Raises (AttributeError ("'" +:+ type_name (response_data response)
                            +:+ "' object has no attribute 'get'")).
Proof.
  intros Hstatus Hdata. unfold settle, decode. fold (response_data response).
  destruct (Z.leb_spec 400 (status_code response)); [|lia].
  by destruct (response_data response).
Qed.

(** A transport failure is raised again as status 500. *)
Lemma settle_request_error (msg : string) :
  settle (Fails (RequestError msg))
  = Raises (SmartleadAPIError 500 (PyStr ("Request error: " +:+ msg)) PyNone).
Proof. reflexivity. Qed.

(** The text of a structured error starts with the status code and the
    message. *)
Lemma handle_api_error_prefix (status : Z) (message details : value) :
  ∃ rest, handle_api_error (SmartleadAPIError status message details)
          = ("Error (" +:+ str_int status +:+ "): " +:+ py_str message) +:+ rest.
Proof.
  unfold handle_api_error. destruct (truthy details).
  - eexists. reflexivity.
  - exists "". symmetry. apply append_empty_r.
Qed.

Lemma invoke_with_client (network : Request → reply) (client : SmartleadClient)
    (call : Main.invocation) (w : world) :
  fst (Main.invoke network (context_of client) call w) =
    match fst (operation network call client w) with
    | Returns response => Returns (format_response response)
    | Raises e => Returns (handle_api_error e)
    end.
Proof. rewrite invoke_tool. apply tool_with_client. Qed.

(** With an object for data, an error status reaches the caller of the
    tool as the text of the structured error. *)
Lemma error_status_with_object_body (client : SmartleadClient)
    (call : Main.invocation) (w : world) (response : Response) (items : dict) :
  (400 <= status_code response)%Z →
  response_data response = PyDict items →
  fst (Main.invoke (answering response) (context_of client) call w)
  = Returns (handle_api_error
               (SmartleadAPIError (status_code response)
                  (default (PyStr "Unknown error") (dict_lookup "message" items))
                  (default (PyDict []) (dict_lookup "errors" items)))).
Proof.
  intros Hstatus Hdata. rewrite invoke_with_client.
  destruct (operation_run (answering response) call client w) as [r [-> _]].
  unfold answering. by rewrite (settle_error_status response items).
Qed.

(** A transport failure reaches the caller of the tool as status 500. *)
Lemma transport_failure_is_status_500 (client : SmartleadClient)
    (call : Main.invocation) (w : world) (msg : string) :
  fst (Main.invoke (failing (RequestError msg)) (context_of client) call w)
  = Returns ("Error (500): Request error: " +:+ msg).
Proof.
  rewrite invoke_with_client.
  by destruct (operation_run (failing (RequestError msg)) call client w) as [r [-> _]].
Qed.

(** The scenario of a timeout on [list_campaigns]. *)
Example list_campaigns_timeout :
  fst (Main.list_campaigns (failing (RequestError "timed out"))
         (context_of sample_client) empty_world)
  = Returns "Error (500): Request error: timed out".
Proof. reflexivity. Qed.

(** C2, where the code leaves the single error channel.  A response
    with an error status whose body decodes to JSON that is not an
    object makes every client method raise [AttributeError] in place of
    [SmartleadAPIError], and the tool's text then carries neither the
    status code nor a message of the service. *)
Theorem error_status_with_non_object_body (client : SmartleadClient)
    (call : Main.invocation) (w : world) (response : Response) :
  (400 <= status_code response)%Z →
  is_dict (response_data response) = false →
  fst (operation (answering response) call client w)
  = Raises (AttributeError ("'" +:+ type_name (response_data response)
                            +:+ "' object has no attribute 'get'"))
  ∧ fst (Main.invoke (answering response) (context_of client) call w)
    = Returns ("Error: '" +:+ type_name (response_data response)
               +:+ "' object has no attribute 'get'").
Proof.
  intros Hstatus Hdata.
  assert (Hop : fst (operation (answering response) call client w)
                = settle (Responds response))
    by (destruct (operation_run (answering response) call client w) as [r [Hr _]];
        exact Hr).
  rewrite invoke_with_client, Hop, settle_error_status_no_get by assumption.
  split; reflexivity.
Qed.

Lemma error_status_with_non_object_body_at_404 :
  fst (list_campaigns (answering not_found_with_array) sample_client empty_world)
  = Raises (AttributeError "'list' object has no attribute 'get'")
  ∧ fst (Main.list_campaigns (answering not_found_with_array)
           (context_of sample_client) empty_world)
    = Returns "Error: 'list' object has no attribute 'get'".
Proof.
  apply (error_status_with_non_object_body sample_client Main.ListCampaigns
           empty_world not_found_with_array); [simpl; lia | reflexivity].
Defined.

(** ** [json.dumps] without [indent] writes one line *)

Lemma value_nested_ind (P : value → Prop) :
  P PyNone → (∀ b, P (PyBool b)) → (∀ n, P (PyInt n)) → (∀ s, P (PyStr s)) →
  (∀ xs, Forall P xs → P (PyList xs)) →
  (∀ items, Forall (λ kv, P kv.2) items → P (PyDict items)) →
  ∀ v, P v.
Proof.
  intros HNone HBool HInt HStr HList HDict.
  fix IH 1. intros [|b|n|s|xs|items].
  - exact HNone.
  - apply HBool.
  - apply HInt.
  - apply HStr.
  - apply HList. revert xs. fix IHxs 1. intros [|x xs].
    + constructor.
    + constructor; [apply IH | apply IHxs].
  - apply HDict. revert items. fix IHitems 1. intros [|[k x] items].
    + constructor.
    + constructor; [apply IH | apply IHitems].
Qed.

Lemma contains_append (c : ascii) (a b : string) :
  contains c (a +:+ b) = contains c a || contains c b.
Proof.
  induction a as [|x rest IH]; [reflexivity|].
  change (contains c (String x (rest +:+ b)) = contains c (String x rest) || contains c b).
  simpl. rewrite IH. by rewrite orb_assoc.
Qed.

Lemma contains_join (c : ascii) (sep : string) (parts : list string) :
  contains c sep = false →
  Forall (λ p, contains c p = false) parts →
  contains c (join sep parts) = false.
Proof.
  intros Hsep Hparts. induction Hparts as [|p rest Hp Hrest IH]; [reflexivity|].
  destruct rest as [|q rest]; [exact Hp|].
  change (contains c (p +:+ sep +:+ join sep (q :: rest)) = false).
  by rewrite !contains_append, Hp, Hsep, IH.
Qed.

Lemma contains_concat_map (c : ascii) (f : ascii → string) (s : string) :
  (∀ x, contains c (f x) = false) → contains c (concat_map f s) = false.
Proof.
  intros Hf. induction s as [|x rest IH]; [reflexivity|].
  simpl. by rewrite contains_append, Hf, IH.
Qed.

Lemma json_escape_no_newline (ensure_ascii : bool) (c : ascii) :
  contains newline (json_escape ensure_ascii c) = false.
Proof. destruct ensure_ascii, c as [[] [] [] [] [] [] [] []]; reflexivity. Qed.

Lemma json_string_no_newline (ensure_ascii : bool) (s : string) :
  contains newline (json_string ensure_ascii s) = false.
Proof.
  unfold json_string. rewrite !contains_append, contains_concat_map; [reflexivity|].
  apply json_escape_no_newline.
Qed.

Lemma digits_no_newline (d : Decimal.uint) :
  contains newline (NilEmpty.string_of_uint d) = false.
Proof. induction d; [reflexivity | exact IHd ..]. Qed.

Lemma string_of_uint_no_newline (d : Decimal.uint) :
  contains newline (NilZero.string_of_uint d) = false.
Proof. destruct d; [reflexivity | apply digits_no_newline ..]. Qed.

Lemma str_int_no_newline (n : Z) : contains newline (str_int n) = false.
Proof.
  unfold str_int. destruct (Z.to_int n) as [d|d]; simpl;
    apply string_of_uint_no_newline.
Qed.

Lemma dumps_at_no_newline (ensure_ascii : bool) (v : value) :
  ∀ level, contains newline (dumps_at ensure_ascii None level v) = false.
Proof.
  induction v as [|b|n|s|xs IH|items IH] using value_nested_ind; intros level.
  - reflexivity.
  - by destruct b.
  - apply str_int_no_newline.
  - apply json_string_no_newline.
  - destruct xs as [|x xs]; [reflexivity|].
    change (contains newline
              ("[" +:+ "" +:+ join (", " +:+ "")
                                (map (dumps_at ensure_ascii None (S level)) (x :: xs))
               +:+ "" +:+ "]") = false).
    rewrite !contains_append, contains_join; [reflexivity | reflexivity |].
    apply Forall_map. eapply Forall_impl; [exact IH|]. simpl. auto.
  - destruct items as [|kv items]; [reflexivity|].
    change (contains newline
              ("{" +:+ "" +:+ join (", " +:+ "")
                 (map (λ kv, match kv with
                             | (k, x) => json_string ensure_ascii k +:+ ": "
                                         +:+ dumps_at ensure_ascii None (S level) x
                             end) (kv :: items))
               +:+ "" +:+ "}") = false).
    rewrite !contains_append, contains_join; [reflexivity | reflexivity |].
    apply Forall_map. eapply Forall_impl; [exact IH|].
    intros [k x] Hx. simpl in Hx. cbv beta iota.
    by rewrite !contains_append, json_string_no_newline, Hx.
Qed.

(** [json.dumps(v, ensure_ascii=False)] has no line break in it. *)
Lemma json_dumps_single_line (v : value) :
  contains newline (json_dumps false None v) = false.
Proof. apply dumps_at_no_newline. Qed.

(** ** Successful responses *)

(** C3 as the claim words it fails on a body that decodes to a JSON
    scalar: for the body [true] the tool returns Python's [True], not
    the JSON text [true]. *)
Lemma scalar_body_is_cast_not_serialized :
  fst (Main.list_campaigns (answering ok_with_true) (context_of sample_client) empty_world)
  = Returns "True"
  ∧ fst (Main.list_campaigns (answering ok_with_true) (context_of sample_client)
           empty_world)
    ≠ Returns (json_dumps false None (PyBool true)).
Proof. split; [reflexivity | discriminate]. Qed.

(** C3, amended.  For a response with status below 400 every client
    method returns the decoded body, or [{"message": text}] when the
    body does not decode; the tool returns [json.dumps(data,
    ensure_ascii=False)] of it when it is an object or an array (the
    wrapper always is), and [str(data)] when the body decodes to a
    string, a number, a boolean or null.  The text [json.dumps] writes
    has no line break. *)
Theorem success_response_formatting (client : SmartleadClient)
    (call : Main.invocation) (w : world) (response : Response) :
  (status_code response < 400)%Z →
  fst (operation (answering response) call client w)
  = Returns (match json_body response with
             | Some v => v
             | None => PyDict [("message", PyStr (text response))]
             end)
  ∧ fst (Main.invoke (answering response) (context_of client) call w)
    = Returns (match json_body response with
               | Some v => if is_dict_or_list v then json_dumps false None v
                           else py_str v
               | None => json_dumps false None
                           (PyDict [("message", PyStr (text response))])
               end)
  ∧ (∀ v, contains newline (json_dumps false None v) = false).
Proof.
  intros Hstatus.
  assert (Hop : fst (operation (answering response) call client w)
                = Returns (response_data response)).
  { destruct (operation_run (answering response) call client w) as [r [Hr _]].
    rewrite Hr. by apply settle_success. }
  rewrite invoke_with_client, Hop. unfold response_data, format_response.
  repeat split; [by destruct (json_body response) | apply json_dumps_single_line].
Qed.

Lemma success_response_formatting_patch_status :
  (status_code ok_true < 400)%Z
  ∧ fst (Main.patch_campaign_status (answering ok_true) (context_of sample_client)
           "123" "PAUSED" empty_world)
    = Returns (json_dumps false None (PyDict [("ok", PyBool true)])).
Proof.
  split; [simpl; lia|].
  apply (success_response_formatting sample_client
           (Main.PatchCampaignStatus "123" "PAUSED") empty_world ok_true).
  simpl. lia.
Defined.

(** What [json.dumps] writes for the answer [{'ok': True}]. *)
Example json_dumps_ok_true :
  json_dumps false None (PyDict [("ok", PyBool true)])
  = "{" +:+ char dquote +:+ "ok" +:+ char dquote +:+ ": true}".
Proof. reflexivity. Qed.

(** The scenario of pausing campaign 123: one POST with the status for
    body, and the service's answer handed back as JSON text. *)
Example patch_campaign_status_paused :
  Main.patch_campaign_status (answering ok_true) (context_of sample_client)
    "123" "PAUSED" empty_world
  = (Returns (json_dumps false None (PyDict [("ok", PyBool true)])),
     mkWorld {[ 1%positive := [("api_key", PyStr "KEY")] ]}
       [Opened (Transient 30);
        Requested (Transient 30)
          (mkRequest "POST" "https://server.smartlead.ai/api/v1/campaigns/123/status"
             [("api_key", PyStr "KEY")]
             (Some (PyDict [("status", PyStr "PAUSED")]))
             default_headers);
        Closed (Transient 30)]).
Proof. vm_compute. reflexivity. Qed.

(** ** Optional arguments *)

Lemma sent_by_request (network : Request → reply) (self : SmartleadClient)
    (verb path : string) (ref : option loc) (body : option value)
    (extra : option (gmap string string)) (w : world) :
  sent_requests (snd (_request network self verb path ref body extra w))
  = (sent_requests w
     ++ [issued self verb path
           (match ref with Some l => default [] (heap w !! l) | None => [] end)
           body extra])%list.
Proof. rewrite _request_run. simpl. apply sent_requests_exchange. Qed.

(** What a wrapper that makes its own [params] sends. *)
Lemma sent_with_new_params (network : Request → reply) (self : SmartleadClient)
    (verb path : string) (query : dict) (w : world) :
  sent_requests (snd ((params <- new_dict query ;;
                       _request network self verb path (Some params) None None) w))
  = (sent_requests w ++ [issued self verb path query None None])%list.
Proof.
  unfold bind, new_dict. rewrite sent_by_request. simpl.
  by rewrite lookup_insert_eq.
Qed.

Ltac keys := unfold dict_keys in *; simpl; rewrite ?elem_of_cons, ?elem_of_nil.

(** Look a key up through the conditional assignments, one at a time. *)
Ltac lookup_optional := repeat (rewrite lookup_set_if_not_None; simpl).

(** C4.  [update_campaign_schedule], [update_campaign_settings] and
    [get_campaign_sequence_analytics] send the dictionary they build,
    unchanged, as the body (the first two) or as the query next to
    [api_key] (the third).  A key is in that dictionary exactly when it
    is a required argument or an optional argument that was given, no
    entry holds [None], and the schedule of the scenario has exactly
    its four required keys. *)
Theorem unset_optional_arguments_are_omitted :
  (∀ network self campaign_id timezone days_of_the_week start_hour end_hour
     min_time_btw_emails max_new_leads_per_day schedule_start_time w,
     let data := schedule_data timezone days_of_the_week start_hour end_hour
                   min_time_btw_emails max_new_leads_per_day schedule_start_time in
     sent_requests (snd (update_campaign_schedule network self campaign_id timezone
                           days_of_the_week start_hour end_hour min_time_btw_emails
                           max_new_leads_per_day schedule_start_time w))
     = (sent_requests w
        ++ [issued self "POST" ("campaigns/" +:+ campaign_id +:+ "/schedule") []
              (Some (PyDict data)) None])%list
     ∧ no_None data
     ∧ ∀ k, k ∈ dict_keys data ↔
            k ∈ ["timezone"; "days_of_the_week"; "start_hour"; "end_hour"]
            ∨ (k = "min_time_btw_emails" ∧ is_Some min_time_btw_emails)
            ∨ (k = "max_new_leads_per_day" ∧ is_Some max_new_leads_per_day)
            ∨ (k = "schedule_start_time" ∧ is_Some schedule_start_time))
  ∧ (∀ network self campaign_id name track_settings stop_lead_settings unsubscribe_text
       send_as_plain_text force_plain_text enable_ai_esp_matching follow_up_percentage
       client_id add_unsubscribe_tag auto_pause_domain_leads_on_reply
       ignore_ss_mailbox_sending_limit bounce_autopause_threshold
       out_of_office_detection_settings ai_categorisation_options w,
       let data := settings_data name track_settings stop_lead_settings unsubscribe_text
                     send_as_plain_text force_plain_text enable_ai_esp_matching
                     follow_up_percentage client_id add_unsubscribe_tag
                     auto_pause_domain_leads_on_reply ignore_ss_mailbox_sending_limit
                     bounce_autopause_threshold out_of_office_detection_settings
                     ai_categorisation_options in
       sent_requests (snd (update_campaign_settings network self campaign_id name
                             track_settings stop_lead_settings unsubscribe_text
                             send_as_plain_text force_plain_text enable_ai_esp_matching
                             follow_up_percentage client_id add_unsubscribe_tag
                             auto_pause_domain_leads_on_reply
                             ignore_ss_mailbox_sending_limit bounce_autopause_threshold
                             out_of_office_detection_settings
                             ai_categorisation_options w))
       = (sent_requests w
          ++ [issued self "POST" ("campaigns/" +:+ campaign_id +:+ "/settings") []
                (Some (PyDict data)) None])%list
       ∧ no_None data
       ∧ ∀ k, k ∈ dict_keys data ↔
              (k = "name" ∧ is_Some name)
              ∨ (k = "track_settings" ∧ is_Some track_settings)
              ∨ (k = "stop_lead_settings" ∧ is_Some stop_lead_settings)
              ∨ (k = "unsubscribe_text" ∧ is_Some unsubscribe_text)
              ∨ (k = "send_as_plain_text" ∧ is_Some send_as_plain_text)
              ∨ (k = "force_plain_text" ∧ is_Some force_plain_text)
              ∨ (k = "enable_ai_esp_matching" ∧ is_Some enable_ai_esp_matching)
              ∨ (k = "follow_up_percentage" ∧ is_Some follow_up_percentage)
              ∨ (k = "client_id" ∧ is_Some client_id)
              ∨ (k = "add_unsubscribe_tag" ∧ is_Some add_unsubscribe_tag)
              ∨ (k = "auto_pause_domain_leads_on_reply"
                 ∧ is_Some auto_pause_domain_leads_on_reply)
              ∨ (k = "ignore_ss_mailbox_sending_limit"
                 ∧ is_Some ignore_ss_mailbox_sending_limit)
              ∨ (k = "bounce_autopause_threshold" ∧ is_Some bounce_autopause_threshold)
              ∨ (k = "out_of_office_detection_settings"
                 ∧ is_Some out_of_office_detection_settings)
              ∨ (k = "ai_categorisation_options" ∧ is_Some ai_categorisation_options))
  ∧ (∀ network self campaign_id start_date end_date time_zone w,
       let query := sequence_analytics_params start_date end_date time_zone in
       sent_requests (snd (get_campaign_sequence_analytics network self campaign_id
                             start_date end_date time_zone w))
       = (sent_requests w
          ++ [issued self "GET" ("campaigns/" +:+ campaign_id +:+ "/sequence-analytics")
                query None None])%list
       ∧ no_None query
       ∧ (∀ k, k ∈ dict_keys query →
               k ∈ ["start_date"; "end_date"] ∨ (k = "time_zone" ∧ is_Some time_zone))
       ∧ ∀ k, k ∈ ["start_date"; "end_date"] → k ∈ dict_keys query)
  ∧ schedule_data "Australia/Sydney" [1; 2; 3; 4; 5] "10:00" "23:00" None None None
    = [("timezone", PyStr "Australia/Sydney");
       ("days_of_the_week", PyList [PyInt 1; PyInt 2; PyInt 3; PyInt 4; PyInt 5]);
       ("start_hour", PyStr "10:00");
       ("end_hour", PyStr "23:00")].
Proof.
  split; [|split; [|split; [|reflexivity]]].
  - intros. split; [apply sent_by_request|]. subst data. unfold schedule_data. split.
    + auto 10 with py_values.
    + intros k. rewrite !keys_set_if_not_None. tauto.
  - intros. split; [apply sent_by_request|]. subst data. unfold settings_data. split.
    + auto 20 with py_values.
    + intros k. rewrite !keys_set_if_not_None. keys. tauto.
  - intros. split; [apply sent_with_new_params|]. subst query.
    unfold sequence_analytics_params.
    destruct time_zone as [tz|]; [destruct (truthy (PyStr tz))|].
    all: split; [by repeat constructor|]; split; intros k; keys; eauto; try tauto.
    intros [->|[->|[->|[]]]]; eauto.
Qed.

(** What the three builders hold for each optional argument. *)
Lemma sequence_analytics_params_lookup (start_date end_date : string)
    (time_zone : option string) :
  let query := sequence_analytics_params start_date end_date time_zone in
  dict_lookup "start_date" query = Some (PyStr start_date)
  ∧ dict_lookup "end_date" query = Some (PyStr end_date)
  ∧ dict_lookup "time_zone" query
    = match time_zone with
      | Some given => if String.eqb given "" then None else Some (PyStr given)
      | None => None
      end.
Proof.
  unfold sequence_analytics_params. destruct time_zone as [given|]; simpl;
    [destruct (String.eqb given "")|]; repeat split.
Qed.

Lemma schedule_data_lookup (timezone : string) (days_of_the_week : list Z)
    (start_hour end_hour : string)
    (min_time_btw_emails max_new_leads_per_day : option Z)
    (schedule_start_time : option string) :
  let data := schedule_data timezone days_of_the_week start_hour end_hour
                min_time_btw_emails max_new_leads_per_day schedule_start_time in
  dict_lookup "min_time_btw_emails" data = PyInt <$> min_time_btw_emails
  ∧ dict_lookup "max_new_leads_per_day" data = PyInt <$> max_new_leads_per_day
  ∧ dict_lookup "schedule_start_time" data = PyStr <$> schedule_start_time.
Proof.
  intros data. subst data. unfold schedule_data.
  repeat split; lookup_optional;
    match goal with |- _ = _ <$> ?arg => by destruct arg end.
Qed.

Lemma settings_data_lookup (name : option string) (track_settings : option (list string))
    (stop_lead_settings unsubscribe_text : option string)
    (send_as_plain_text force_plain_text enable_ai_esp_matching : option bool)
    (follow_up_percentage client_id : option Z)
    (add_unsubscribe_tag auto_pause_domain_leads_on_reply
       ignore_ss_mailbox_sending_limit : option bool)
    (bounce_autopause_threshold : option string)
    (out_of_office_detection_settings : option dict)
    (ai_categorisation_options : option (list Z)) :
  let data := settings_data name track_settings stop_lead_settings unsubscribe_text
                send_as_plain_text force_plain_text enable_ai_esp_matching
                follow_up_percentage client_id add_unsubscribe_tag
                auto_pause_domain_leads_on_reply ignore_ss_mailbox_sending_limit
                bounce_autopause_threshold out_of_office_detection_settings
                ai_categorisation_options in
  dict_lookup "name" data = PyStr <$> name
  ∧ dict_lookup "track_settings" data = PyStrs <$> track_settings
  ∧ dict_lookup "stop_lead_settings" data = PyStr <$> stop_lead_settings
  ∧ dict_lookup "unsubscribe_text" data = PyStr <$> unsubscribe_text
  ∧ dict_lookup "send_as_plain_text" data = PyBool <$> send_as_plain_text
  ∧ dict_lookup "force_plain_text" data = PyBool <$> force_plain_text
  ∧ dict_lookup "enable_ai_esp_matching" data = PyBool <$> enable_ai_esp_matching
  ∧ dict_lookup "follow_up_percentage" data = PyInt <$> follow_up_percentage
  ∧ dict_lookup "client_id" data = PyInt <$> client_id
  ∧ dict_lookup "add_unsubscribe_tag" data = PyBool <$> add_unsubscribe_tag
  ∧ dict_lookup "auto_pause_domain_leads_on_reply" data
    = PyBool <$> auto_pause_domain_leads_on_reply
  ∧ dict_lookup "ignore_ss_mailbox_sending_limit" data
    = PyBool <$> ignore_ss_mailbox_sending_limit
  ∧ dict_lookup "bounce_autopause_threshold" data
    = PyStr <$> bounce_autopause_threshold
  ∧ dict_lookup "out_of_office_detection_settings" data
    = PyDict <$> out_of_office_detection_settings
  ∧ dict_lookup "ai_categorisation_options" data
    = PyInts <$> ai_categorisation_options.
Proof.
  intros data. subst data. unfold settings_data.
  repeat split; lookup_optional;
    match goal with |- _ = _ <$> ?arg => by destruct arg end.
Qed.

(** C9.  The request [get_campaign_sequence_analytics] sends has
    [time_zone] in its query only when the argument is true: given as
    the empty text it is left out, the request being the one sent when
    it is not given at all, and any other text is sent.  The requests
    [update_campaign_schedule] and [update_campaign_settings] send
    carry in their body every optional argument that is not [None], as
    it was given: the empty text, zero and [False] included. *)
Theorem time_zone_is_tested_for_truth :
  (∀ start_date end_date,
     sequence_analytics_params start_date end_date (Some "")
     = [("start_date", PyStr start_date); ("end_date", PyStr end_date)])
  ∧ (∀ network self campaign_id start_date end_date w,
       sent_requests (snd (get_campaign_sequence_analytics network self campaign_id
                             start_date end_date (Some "") w))
       = (sent_requests w
          ++ [issued self "GET" ("campaigns/" +:+ campaign_id +:+ "/sequence-analytics")
                [("start_date", PyStr start_date); ("end_date", PyStr end_date)]
                None None])%list
       ∧ sent_requests (snd (get_campaign_sequence_analytics network self campaign_id
                               start_date end_date (Some "") w))
         = sent_requests (snd (get_campaign_sequence_analytics network self campaign_id
                                 start_date end_date None w)))
  ∧ (∀ network self campaign_id start_date end_date time_zone w,
       ∃ r,
         sent_requests (snd (get_campaign_sequence_analytics network self campaign_id
                               start_date end_date time_zone w))
         = (sent_requests w ++ [r])%list
         ∧ method r = "GET"
         ∧ json r = None
         ∧ dict_lookup "start_date" (params r) = Some (PyStr start_date)
         ∧ dict_lookup "end_date" (params r) = Some (PyStr end_date)
         ∧ dict_lookup "time_zone" (params r)
           = match time_zone with
             | Some given => if String.eqb given "" then None else Some (PyStr given)
             | None => None
             end)
  ∧ (∀ network self campaign_id timezone days_of_the_week start_hour end_hour
       min_time_btw_emails max_new_leads_per_day schedule_start_time w,
       ∃ r data,
         sent_requests (snd (update_campaign_schedule network self campaign_id timezone
                               days_of_the_week start_hour end_hour min_time_btw_emails
                               max_new_leads_per_day schedule_start_time w))
         = (sent_requests w ++ [r])%list
         ∧ method r = "POST"
         ∧ json r = Some (PyDict data)
         ∧ dict_lookup "min_time_btw_emails" data = PyInt <$> min_time_btw_emails
         ∧ dict_lookup "max_new_leads_per_day" data = PyInt <$> max_new_leads_per_day
         ∧ dict_lookup "schedule_start_time" data = PyStr <$> schedule_start_time)
  ∧ (∀ network self campaign_id name track_settings stop_lead_settings unsubscribe_text
       send_as_plain_text force_plain_text enable_ai_esp_matching follow_up_percentage
       client_id add_unsubscribe_tag auto_pause_domain_leads_on_reply
       ignore_ss_mailbox_sending_limit bounce_autopause_threshold
       out_of_office_detection_settings ai_categorisation_options w,
       ∃ r data,
         sent_requests (snd (update_campaign_settings network self campaign_id name
                               track_settings stop_lead_settings unsubscribe_text
                               send_as_plain_text force_plain_text enable_ai_esp_matching
                               follow_up_percentage client_id add_unsubscribe_tag
                               auto_pause_domain_leads_on_reply
                               ignore_ss_mailbox_sending_limit bounce_autopause_threshold
                               out_of_office_detection_settings
                               ai_categorisation_options w))
         = (sent_requests w ++ [r])%list
         ∧ method r = "POST"
         ∧ json r = Some (PyDict data)
         ∧ dict_lookup "name" data = PyStr <$> name
         ∧ dict_lookup "track_settings" data = PyStrs <$> track_settings
         ∧ dict_lookup "stop_lead_settings" data = PyStr <$> stop_lead_settings
         ∧ dict_lookup "unsubscribe_text" data = PyStr <$> unsubscribe_text
         ∧ dict_lookup "send_as_plain_text" data = PyBool <$> send_as_plain_text
         ∧ dict_lookup "force_plain_text" data = PyBool <$> force_plain_text
         ∧ dict_lookup "enable_ai_esp_matching" data = PyBool <$> enable_ai_esp_matching
         ∧ dict_lookup "follow_up_percentage" data = PyInt <$> follow_up_percentage
         ∧ dict_lookup "client_id" data = PyInt <$> client_id
         ∧ dict_lookup "add_unsubscribe_tag" data = PyBool <$> add_unsubscribe_tag
         ∧ dict_lookup "auto_pause_domain_leads_on_reply" data
           = PyBool <$> auto_pause_domain_leads_on_reply
         ∧ dict_lookup "ignore_ss_mailbox_sending_limit" data
           = PyBool <$> ignore_ss_mailbox_sending_limit
         ∧ dict_lookup "bounce_autopause_threshold" data
           = PyStr <$> bounce_autopause_threshold
         ∧ dict_lookup "out_of_office_detection_settings" data
           = PyDict <$> out_of_office_detection_settings
         ∧ dict_lookup "ai_categorisation_options" data
           = PyInts <$> ai_categorisation_options).
Proof.
  split; [reflexivity|]. split; [|split; [|split]].
  - intros. split; [apply sent_with_new_params|].
    unfold get_campaign_sequence_analytics. by rewrite !sent_with_new_params.
  - intros. eexists. split; [apply sent_with_new_params|].
    unfold issued. cbn [method json params]. rewrite !lookup_setitem. simpl.
    split; [reflexivity|]. split; [reflexivity|].
    apply sequence_analytics_params_lookup.
  - intros. eexists. eexists. split; [apply sent_by_request|].
    unfold issued. cbn [method json]. split; [reflexivity|]. split; [reflexivity|].
    apply schedule_data_lookup.
  - intros. eexists. eexists. split; [apply sent_by_request|].
    unfold issued. cbn [method json]. split; [reflexivity|]. split; [reflexivity|].
    apply settings_data_lookup.
Qed.

(** ** Authentication and headers *)

Lemma merge_headers_union (extra : option (gmap string string)) :
  merge_headers extra = default ∅ extra ∪ default_headers.
Proof.
  assert (Hempty : default_headers = ∅ ∪ default_headers)
    by (symmetry; apply (left_id_L ∅ (∪))).
  destruct extra as [given|]; simpl; [|exact Hempty].
  destruct (decide (given = ∅)) as [->|_]; [exact Hempty|].
  apply (map_fold_weak_ind (λ acc m, acc = m ∪ default_headers)).
  - exact Hempty.
  - intros key value m acc _ ->. by rewrite insert_union_l.
Qed.

Lemma merge_headers_lookup (extra : option (gmap string string)) (k : string) :
  merge_headers extra !! k
  = match extra ≫= (.!! k) with
    | Some v => Some v
    | None => default_headers !! k
    end.
Proof.
  rewrite merge_headers_union, lookup_union.
  destruct extra as [given|]; simpl.
  - destruct (given !! k), (default_headers !! k); reflexivity.
  - rewrite lookup_empty. by destruct (default_headers !! k).
Qed.


(** C6.  The headers of a request are the two defaults with the
    caller's headers written over them: a name the caller gives has the
    caller's value, any other name has its default, if it has one.
    [export_campaign_data] therefore asks for [text/plain] and keeps
    the default [Content-Type]; when the body of its response does not
    decode, the data is the raw text under ["message"], which the client
    returns for a status below 400 and whose text becomes the message
    of the [SmartleadAPIError] otherwise. *)
Theorem caller_headers_override_defaults :
  (∀ extra k,
     merge_headers extra !! k
     = match extra ≫= (.!! k) with
       | Some v => Some v
       | None => default_headers !! k
       end)
  ∧ default_headers !! "Content-Type" = Some "application/json"
  ∧ default_headers !! "Accept" = Some "application/json"
  ∧ (∀ network self verb path ref body extra w,
       ∃ r, sent_requests (snd (_request network self verb path ref body extra w))
            = (sent_requests w ++ [r])%list
            ∧ headers r = merge_headers extra)
  ∧ (∀ network self campaign_id w,
       ∃ r, sent_requests (snd (export_campaign_data network self campaign_id w))
            = (sent_requests w ++ [r])%list
            ∧ method r = "GET"
            ∧ url r = join_url (api_url self)
                        ("campaigns/" +:+ campaign_id +:+ "/leads-export")
            ∧ headers r !! "Accept" = Some "text/plain"
            ∧ headers r !! "Content-Type" = Some "application/json")
  ∧ (∀ self campaign_id status body w,
       fst (export_campaign_data (answering (mkResponse status body None)) self
              campaign_id w)
       = if (400 <=? status)%Z
         then Raises (SmartleadAPIError status (PyStr body) (PyDict []))
         else Returns (PyDict [("message", PyStr body)]))
  ∧ (∀ self campaign_id status body w,
       fst (Main.export_campaign_data (answering (mkResponse status body None))
              (context_of self) campaign_id w)
       = if (400 <=? status)%Z
         then Returns ("Error (" +:+ str_int status +:+ "): " +:+ body)
         else Returns (json_dumps false None (PyDict [("message", PyStr body)]))).
Proof.
  split; [exact merge_headers_lookup|].
  split; [vm_compute; reflexivity|]. split; [vm_compute; reflexivity|].
  assert (Hexport : ∀ self campaign_id status body w,
            fst (export_campaign_data (answering (mkResponse status body None)) self
                   campaign_id w)
            = if (400 <=? status)%Z
              then Raises (SmartleadAPIError status (PyStr body) (PyDict []))
              else Returns (PyDict [("message", PyStr body)])).
  { intros. unfold export_campaign_data. rewrite _request_run. simpl.
    unfold decode. simpl. by destruct (400 <=? status)%Z. }
  repeat split.
  - intros. eexists. split; [apply sent_by_request | reflexivity].
  - intros. eexists. split; [apply sent_by_request|].
    repeat split; vm_compute; reflexivity.
  - exact Hexport.
  - intros. change (Main.export_campaign_data ?n ?c campaign_id)
      with (Main.tool c (λ client, export_campaign_data n client campaign_id)).
    rewrite tool_with_client, Hexport.
    by destruct (400 <=? status)%Z.
Qed.

(** ** Lifespan *)

(** C7, where the code fails.  Once startup has made a client, the
    [finally] block of the lifespan calls [close] on it; the class
    [SmartleadClient] defines no such attribute, so the shutdown raises
    [AttributeError] whatever the server did in between. *)
Theorem lifespan_shutdown_raises (A : Type) (env : environ)
    (serve : LifespanContext → M A) (w : world) :
  unset env "SMARTLEAD_API_KEY" = false →
  (∀ client w0,
     Main.shutdown client w0
     = (Raises (AttributeError "'SmartleadClient' object has no attribute 'close'"), w0))
  ∧ fst (Main.smartlead_lifespan env serve w)
    = Raises (AttributeError "'SmartleadClient' object has no attribute 'close'").
Proof.
  intros Hkey. split; [reflexivity|].
  unfold Main.smartlead_lifespan, Main.startup, validate_environment, bind, try_finally.
  simpl. rewrite Hkey. simpl.
  by destruct (serve _ w) as [r w'].
Qed.

Lemma lifespan_shutdown_raises_with_key_set :
  unset sample_environ "SMARTLEAD_API_KEY" = false
  ∧ fst (Main.smartlead_lifespan sample_environ (λ _, ret tt) empty_world)
    = Raises (AttributeError "'SmartleadClient' object has no attribute 'close'").
Proof.
  split; [reflexivity|].
  apply (lifespan_shutdown_raises unit sample_environ (λ _, ret tt) empty_world).
  reflexivity.
Defined.

(** ** The request URL *)

(** C8.  The URL of a request is the base URL without the slashes it
    ends in, one slash, and the endpoint without the slashes it starts
    with: what is left of the base does not end in a slash and what is
    left of the endpoint does not start with one. *)
Theorem request_url_joins_with_one_slash (network : Request → reply)
    (self : SmartleadClient) (verb endpoint : string) (ref : option loc)
    (body : option value) (extra : option (gmap string string)) (w : world) :
  ∃ (n m : nat) (r : Request),
    sent_requests (snd (_request network self verb endpoint ref body extra w))
    = (sent_requests w ++ [r])%list
    ∧ url r = rstrip_slash (api_url self) +:+ "/" +:+ lstrip_slash endpoint
    ∧ api_url self = rstrip_slash (api_url self) +:+ slashes n
    ∧ endpoint = slashes m +:+ lstrip_slash endpoint
    ∧ last_char (rstrip_slash (api_url self)) ≠ Some slash
    ∧ first_char (lstrip_slash endpoint) ≠ Some slash.
Proof.
  destruct (rstrip_slash_spec (api_url self)) as [n [Hbase Hlast]].
  destruct (lstrip_slash_spec endpoint) as [m [Hendpoint Hfirst]].
  exists n, m. eexists. split; [apply sent_by_request|].
  repeat split; assumption.
Qed.

(** ** The caller's [params] *)

(** C10.  [_request] writes [api_key] into the dictionary it is given
    as [params], not into a copy: after the call the caller's object
    holds the client's key under ["api_key"], in place of any value the
    caller had there, its other entries are as they were, and no other
    object of the store has changed. *)
Theorem params_dictionary_is_mutated (network : Request → reply)
    (self : SmartleadClient) (verb path : string) (l : loc) (given : dict)
    (body : option value) (extra : option (gmap string string)) (w : world) :
  heap w !! l = Some given →
  ∃ after,
    heap (snd (_request network self verb path (Some l) body extra w)) !! l = Some after
    ∧ after = dict_setitem "api_key" (PyStr (api_key self)) given
    ∧ dict_lookup "api_key" after = Some (PyStr (api_key self))
    ∧ (∀ k, k ≠ "api_key" → dict_lookup k after = dict_lookup k given)
    ∧ (∀ l', l' ≠ l →
             heap (snd (_request network self verb path (Some l) body extra w)) !! l'
             = heap w !! l').
Proof.
  intros Hgiven. rewrite _request_run. simpl. rewrite Hgiven. simpl.
  eexists. split; [apply lookup_insert_eq|]. split; [reflexivity|].
  split; [|split].
  - rewrite lookup_setitem. by rewrite String.eqb_refl.
  - intros k Hk. rewrite lookup_setitem.
    by destruct (String.eqb_spec k "api_key").
  - intros l' Hl'. by rewrite lookup_insert_ne.
Qed.

Lemma params_dictionary_is_mutated_over_own_key :
  heap caller_world !! 1%positive = Some caller_query
  ∧ ∃ after,
      heap (snd (_request (answering ok_true) sample_client "GET" "campaigns/"
                   (Some 1%positive) None None caller_world)) !! 1%positive
      = Some after
      ∧ after = dict_setitem "api_key" (PyStr (api_key sample_client)) caller_query
      ∧ dict_lookup "api_key" after = Some (PyStr (api_key sample_client))
      ∧ (∀ k, k ≠ "api_key" → dict_lookup k after = dict_lookup k caller_query)
      ∧ (∀ l', l' ≠ 1%positive →
               heap (snd (_request (answering ok_true) sample_client "GET" "campaigns/"
                            (Some 1%positive) None None caller_world)) !! l'
               = heap caller_world !! l').
Proof.
  split; [reflexivity|].
  apply (params_dictionary_is_mutated (answering ok_true) sample_client "GET"
           "campaigns/" 1%positive caller_query None None caller_world).
  reflexivity.
Defined.

(** * Further properties of the code *)

(** ** The environment and the lifespan *)

Lemma validate_environment_run (env : environ) (w : world) :
  validate_environment env w
  = match env !! "SMARTLEAD_API_KEY" with
    | Some (String _ _) => (Returns tt, w)
    | _ => (Raises (ValueError
                     "Missing required environment variables: SMARTLEAD_API_KEY"), w)
    end.
Proof.
  unfold validate_environment, unset. simpl.
  by destruct (env !! "SMARTLEAD_API_KEY") as [[|c key]|].
Qed.

Lemma lifespan_run (A : Type) (env : environ) (serve : LifespanContext → M A)
    (w : world) :
  Main.smartlead_lifespan env serve w
  = match env !! "SMARTLEAD_API_KEY" with
    | Some (String c key) =>
        let client :=
          mkClient (String c key)
            (match env !! "SMARTLEAD_API_URL" with
             | Some api_url => api_url
             | None => "https://server.smartlead.ai/api/v1"
             end) 30 None in
        try_finally (serve (mkLifespanContext (Some (ClientObject client))))
          (Main.shutdown client) w
    | _ => (Raises (ValueError
                     "Missing required environment variables: SMARTLEAD_API_KEY"), w)
    end.
Proof.
  unfold Main.smartlead_lifespan, Main.startup, bind.
  rewrite validate_environment_run.
  by destruct (env !! "SMARTLEAD_API_KEY") as [[|c key]|].
Qed.

(** X1.  [validate_environment] raises exactly when [SMARTLEAD_API_KEY]
    is unset or set to the empty text, with a message that names the
    variable, and returns without any effect otherwise. *)
Theorem validate_environment_requires_api_key (env : environ) (w : world) :
  validate_environment env w
  = match env !! "SMARTLEAD_API_KEY" with
    | Some (String _ _) => (Returns tt, w)
    | _ => (Raises (ValueError
                     "Missing required environment variables: SMARTLEAD_API_KEY"), w)
    end
  ∧ (fst (validate_environment env w) = Returns tt
     ↔ ∃ key, env !! "SMARTLEAD_API_KEY" = Some key ∧ key ≠ "").
Proof.
  split; [apply validate_environment_run|].
  rewrite validate_environment_run.
  destruct (env !! "SMARTLEAD_API_KEY") as [[|c key]|]; simpl; split.
  - discriminate.
  - intros [key [[= <-] Hkey]]. by destruct Hkey.
  - intros _. by exists (String c key).
  - reflexivity.
  - discriminate.
  - by intros [key [? _]].
Qed.

(** X2.  Without a usable [SMARTLEAD_API_KEY] the lifespan raises before
    it yields: the server body is never run and nothing changes.  With
    one, the body runs under a context that holds a client with that
    key, the URL of [SMARTLEAD_API_URL] when the variable is set (the
    empty text included) and the production URL otherwise, a timeout of
    30 and no connection of its own, and [get_client_from_context]
    accepts that context. *)
Theorem lifespan_startup (A : Type) (env : environ) (serve : LifespanContext → M A)
    (w : world) :
  Main.smartlead_lifespan env serve w
  = match env !! "SMARTLEAD_API_KEY" with
    | Some (String c key) =>
        let client :=
          mkClient (String c key)
            (match env !! "SMARTLEAD_API_URL" with
             | Some api_url => api_url
             | None => "https://server.smartlead.ai/api/v1"
             end) 30 None in
        try_finally (serve (mkLifespanContext (Some (ClientObject client))))
          (Main.shutdown client) w
    | _ => (Raises (ValueError
                     "Missing required environment variables: SMARTLEAD_API_KEY"), w)
    end
  ∧ ∀ client w0,
      get_client_from_context
        (mkContext (mkRequestContext
                      (Some (mkLifespanContext (Some (ClientObject client)))))) w0
      = (Returns client, w0).
Proof. split; [apply lifespan_run | reflexivity]. Qed.

(** ** Connections *)

Lemma operation_log (network : Request → reply) (call : Main.invocation)
    (client : SmartleadClient) (w : world) :
  ∃ r : Request,
    log (snd (operation network call client w)) = (log w ++ exchange client r)%list.
Proof.
  destruct call; simpl;
    unfold list_campaigns, get_campaign, create_campaign, update_campaign_schedule,
      update_campaign_settings, save_campaign_sequence, patch_campaign_status,
      get_campaign_analytics, get_campaign_sequence, get_campaigns_by_lead_id,
      export_campaign_data, get_campaign_sequence_analytics;
    unfold bind, new_dict; rewrite _request_run; simpl; eexists; reflexivity.
Qed.

(** X3.  A client without a connection of its own opens one with its
    timeout, sends one request on it and closes it, whatever the
    network does with the request; a client that was given a
    connection sends the request on it and neither opens nor closes
    anything.  This holds for [_request] and for every client
    method. *)
Theorem transient_connection_is_closed (network : Request → reply)
    (self : SmartleadClient) (w : world) :
  (∀ verb path ref body extra,
     ∃ r, log (snd (_request network self verb path ref body extra w))
          = (log w
             ++ match http_client self with
                | Some c => [Requested c r]
                | None => [Opened (Transient (timeout self));
                           Requested (Transient (timeout self)) r;
                           Closed (Transient (timeout self))]
                end)%list)
  ∧ (∀ call,
       ∃ r, log (snd (operation network call self w))
            = (log w
               ++ match http_client self with
                  | Some c => [Requested c r]
                  | None => [Opened (Transient (timeout self));
                             Requested (Transient (timeout self)) r;
                             Closed (Transient (timeout self))]
                  end)%list).
Proof.
  split.
  - intros. rewrite _request_run. simpl. eexists. reflexivity.
  - intros call. destruct (operation_log network call self w) as [r Hr].
    exists r. exact Hr.
Qed.

(** ** What the caller of a tool reads of a failure *)

Lemma invoke_world (network : Request → reply) (client : SmartleadClient)
    (call : Main.invocation) (w : world) :
  snd (Main.invoke network (context_of client) call w)
  = snd (operation network call client w).
Proof.
  rewrite invoke_tool, tool_run. simpl. unfold ret.
  by destruct (operation network call client w) as [[response|e] w2].
Qed.

(** X4.  Only [httpx.RequestError] is turned into status 500.  Any
    other exception the connection raises leaves the client method as
    it is, and the tool prints it as ["Error: "] and its text, with no
    status code. *)
Theorem other_exceptions_keep_their_class (client : SmartleadClient)
    (call : Main.invocation) (w : world) (e : exn) :
  is_RequestError e = false →
  fst (operation (failing e) call client w) = Raises e
  ∧ fst (Main.invoke (failing e) (context_of client) call w)
    = Returns (handle_api_error e)
  ∧ ∀ msg, handle_api_error (OtherException msg) = "Error: " +:+ msg.
Proof.
  intros He.
  assert (Hop : fst (operation (failing e) call client w) = Raises e).
  { destruct (operation_run (failing e) call client w) as [r [-> _]].
    unfold failing, settle. by rewrite He. }
  rewrite invoke_with_client, Hop. repeat split.
Qed.

Lemma other_exceptions_keep_their_class_invalid_url :
  is_RequestError (OtherException "Invalid URL") = false
  ∧ fst (Main.get_campaign (failing (OtherException "Invalid URL"))
           (context_of sample_client) "7" empty_world)
    = Returns "Error: Invalid URL".
Proof.
  split; [reflexivity|].
  apply (other_exceptions_keep_their_class sample_client (Main.GetCampaign "7")
           empty_world (OtherException "Invalid URL")).
  reflexivity.
Defined.

(** X5.  When the service answers with an error status and a JSON
    object (or a body that does not decode, which counts as the object
    holding the raw text as its message), every tool returns
    ["Error (<status>): <message>"], where the message is the entry
    ["message"] of the object, or ["Unknown error"] when the object has
    none; a line ["Details: "] with the entry ["errors"], indented by
    two, follows when the object has such an entry and it is not
    empty. *)
Theorem error_text_of_object_body (client : SmartleadClient)
    (call : Main.invocation) (w : world) (response : Response) (items : dict) :
  (400 <= status_code response)%Z →
  response_data response = PyDict items →
  fst (Main.invoke (answering response) (context_of client) call w)
  = Returns
      (("Error (" +:+ str_int (status_code response) +:+ "): "
        +:+ match dict_lookup "message" items with
            | Some message => py_str message
            | None => "Unknown error"
            end)
       +:+ match dict_lookup "errors" items with
           | Some details =>
               if truthy details
               then String newline "Details: " +:+ json_dumps true (Some 2%nat) details
               else ""
           | None => ""
           end).
Proof.
  intros Hstatus Hdata. rewrite invoke_with_client.
  destruct (operation_run (answering response) call client w) as [r [-> _]].
  unfold answering. rewrite (settle_error_status response items) by assumption.
  unfold handle_api_error.
  destruct (dict_lookup "message" items) as [message|],
           (dict_lookup "errors" items) as [details|]; simpl;
    try destruct (truthy details); by rewrite ?append_empty_r.
Qed.

Lemma error_text_of_object_body_not_found :
  (400 <= status_code not_found_with_message)%Z
  ∧ fst (Main.get_campaign (answering not_found_with_message)
           (context_of sample_client) "7" empty_world)
    = Returns "Error (404): Campaign not found".
Proof.
  split; [simpl; lia|].
  apply (error_text_of_object_body sample_client (Main.GetCampaign "7") empty_world
           not_found_with_message [("message", PyStr "Campaign not found")]).
  - simpl. lia.
  - reflexivity.
Defined.

(** X6.  When the connection fails with an [httpx.RequestError]
    (refused, timed out, name not resolved), every tool has sent that
    one request, with no second attempt, and returns
    ["Error (500): Request error: "] followed by the text of the
    failure. *)
Theorem transport_failure_text (client : SmartleadClient) (call : Main.invocation)
    (w : world) (msg : string) :
  fst (Main.invoke (failing (RequestError msg)) (context_of client) call w)
  = Returns ("Error (500): Request error: " +:+ msg)
  ∧ ∃ r, sent_requests (snd (Main.invoke (failing (RequestError msg))
                               (context_of client) call w))
         = (sent_requests w ++ [r])%list.
Proof.
  rewrite invoke_with_client, invoke_world.
  destruct (operation_run (failing (RequestError msg)) call client w) as [r [-> Hsent]].
  split; [reflexivity | by exists r].
Qed.

(** ** The text of a response *)

(** X7.  [format_response] writes a dictionary or a list on one line:
    the text has no line break, even where a string inside the data has
    one.  A string on its own is returned as it is, line breaks
    included. *)
Theorem format_response_single_line (data : value) :
  is_dict_or_list data = true →
  contains newline (format_response data) = false
  ∧ ∀ s, format_response (PyStr s) = s.
Proof.
  intros Hdata. unfold format_response. rewrite Hdata.
  split; [apply json_dumps_single_line | reflexivity].
Qed.

Lemma format_response_single_line_of_break :
  is_dict_or_list (PyDict [("note", PyStr (String newline "x"))]) = true
  ∧ contains newline (format_response (PyDict [("note", PyStr (String newline "x"))]))
    = false.
Proof.
  split; [reflexivity|].
  apply (format_response_single_line (PyDict [("note", PyStr (String newline "x"))])).
  reflexivity.
Defined.

(** ** Slashes at the join of the URL *)

Lemma rstrip_slashes (n : nat) : rstrip_slash (slashes n) = "".
Proof. induction n as [|n IH]; [reflexivity|]. simpl. by rewrite IH. Qed.

Lemma rstrip_slash_append (s : string) (n : nat) :
  rstrip_slash (s +:+ slashes n) = rstrip_slash s.
Proof.
  induction s as [|c rest IH].
  - apply rstrip_slashes.
  - change (rstrip_slash (String c (rest +:+ slashes n)) = rstrip_slash (String c rest)).
    simpl. by rewrite IH.
Qed.

Lemma lstrip_slash_append (m : nat) (s : string) :
  lstrip_slash (slashes m +:+ s) = lstrip_slash s.
Proof. induction m as [|m IH]; [reflexivity | exact IH]. Qed.

(** X8.  The URL does not depend on how many slashes the base URL ends
    in or the endpoint starts with, and stripping is idempotent; an
    endpoint that is empty or all slashes gives the base URL and one
    slash. *)
Theorem join_url_ignores_slashes_at_the_join (base endpoint : string) (n m : nat) :
  join_url (base +:+ slashes n) (slashes m +:+ endpoint) = join_url base endpoint
  ∧ rstrip_slash (rstrip_slash base) = rstrip_slash base
  ∧ lstrip_slash (lstrip_slash endpoint) = lstrip_slash endpoint
  ∧ join_url base (slashes m) = rstrip_slash base +:+ "/".
Proof.
  unfold join_url. rewrite rstrip_slash_append, lstrip_slash_append.
  split; [reflexivity|]. split; [|split].
  - destruct (rstrip_slash_spec base) as [k [Hbase _]].
    rewrite Hbase at 2. by rewrite rstrip_slash_append.
  - destruct (lstrip_slash_spec endpoint) as [k [Hendpoint _]].
    rewrite Hendpoint at 2. by rewrite lstrip_slash_append.
  - rewrite <- (append_empty_r (slashes m)), lstrip_slash_append. reflexivity.
Qed.

(** ** The shape of the requests *)

(** X9.  Every client method sends one request to a URL made of the
    base URL without its trailing slashes, a slash, and a path that
    starts with [campaigns/] or [leads/].  The request is a GET without
    a JSON body, or a POST whose body is a JSON object and whose query
    holds [api_key] and nothing else. *)
Theorem client_methods_use_get_and_post (network : Request → reply)
    (client : SmartleadClient) (call : Main.invocation) (w : world) :
  ∃ (r : Request) (path : string),
    sent_requests (snd (operation network call client w))
    = (sent_requests w ++ [r])%list
    ∧ url r = rstrip_slash (api_url client) +:+ "/" +:+ path
    ∧ (∃ rest, path = "campaigns/" +:+ rest ∨ path = "leads/" +:+ rest)
    ∧ ((method r = "GET" ∧ json r = None)
       ∨ (method r = "POST"
          ∧ (∃ items, json r = Some (PyDict items))
          ∧ params r = [("api_key", PyStr (api_key client))])).
Proof.
  destruct call; simpl;
    unfold list_campaigns, get_campaign, create_campaign, update_campaign_schedule,
      update_campaign_settings, save_campaign_sequence, patch_campaign_status,
      get_campaign_analytics, get_campaign_sequence, get_campaigns_by_lead_id,
      export_campaign_data, get_campaign_sequence_analytics;
    eexists; eexists;
    (split; [first [apply sent_by_request | apply sent_with_new_params]|]);
    unfold issued, join_url; cbn [url method json params];
    (split; [reflexivity|]);
    (split; [eexists; first [left; reflexivity | right; reflexivity]|]);
    first [left; split; reflexivity
          | right; split; [reflexivity | split; [eexists; reflexivity | reflexivity]]].
Qed.

(** ** The store *)

Lemma operation_heap (network : Request → reply) (call : Main.invocation)
    (client : SmartleadClient) (w : world) :
  ∃ d : dict,
    heap (snd (operation network call client w))
    = <[fresh (dom (heap w)) := d]> (heap w).
Proof.
  destruct call; simpl;
    unfold list_campaigns, get_campaign, create_campaign, update_campaign_schedule,
      update_campaign_settings, save_campaign_sequence, patch_campaign_status,
      get_campaign_analytics, get_campaign_sequence, get_campaigns_by_lead_id,
      export_campaign_data, get_campaign_sequence_analytics;
    unfold bind, new_dict; rewrite _request_run; simpl;
    rewrite ?insert_insert_eq; eexists; reflexivity.
Qed.

(** X10.  A tool call leaves every dictionary that was in the store
    before it as it was: the client methods write [api_key] only into
    a dictionary they have made themselves, and a call that fails on
    its context touches nothing. *)
Theorem tools_leave_existing_objects (network : Request → reply) (ctx : Context)
    (call : Main.invocation) (w : world) (l : loc) (d : dict) :
  heap w !! l = Some d →
  heap (snd (Main.invoke network ctx call w)) !! l = Some d.
Proof.
  intros Hl. rewrite invoke_tool, tool_run.
  assert (Hctx : snd (get_client_from_context ctx w) = w).
  { unfold get_client_from_context.
    destruct (lifespan_context (request_context ctx)) as [[[[c|v]|]]|]; reflexivity. }
  destruct (get_client_from_context ctx w) as [[client|e] w1]; simpl in Hctx; subst w1;
    [|exact Hl].
  destruct (operation_heap network call client w) as [made Hheap].
  assert (Hfresh : fresh (dom (heap w)) ≠ l).
  { intros <-. apply (is_fresh (dom (heap w))). by apply (elem_of_dom_2 _ _ d). }
  destruct (operation network call client w) as [[response|e] w2]; simpl in *;
    by rewrite Hheap, lookup_insert_ne.
Qed.

Lemma tools_leave_existing_objects_caller_query :
  heap caller_world !! 1%positive = Some caller_query
  ∧ heap (snd (Main.get_campaign_analytics (answering ok_true)
                 (context_of sample_client) "7" "2025-01-29" "2025-02-25"
                 caller_world)) !! 1%positive
    = Some caller_query.
Proof.
  split; [reflexivity|].
  apply (tools_leave_existing_objects (answering ok_true) (context_of sample_client)
           (Main.GetCampaignAnalytics "7" "2025-01-29" "2025-02-25") caller_world
           1%positive caller_query).
  reflexivity.
Defined.

(** ** One request, one reply *)

(** X11.  A tool call with a usable context sends exactly one request,
    whatever comes of it, and its result depends on the network only
    through the reply to that request: a network that gave this reply
    to everything would lead to the same result. *)
Theorem tool_result_depends_on_one_reply (network : Request → reply)
    (client : SmartleadClient) (call : Main.invocation) (w : world) :
  ∃ r : Request,
    sent_requests (snd (Main.invoke network (context_of client) call w))
    = (sent_requests w ++ [r])%list
    ∧ fst (Main.invoke network (context_of client) call w)
      = fst (Main.invoke (λ _, network r) (context_of client) call w).
Proof.
  destruct (operation_run network call client w) as [r [Hfst Hsent]].
  exists r. rewrite invoke_world, !invoke_with_client, Hfst.
  split; [exact Hsent|].
  by destruct (operation_run (λ _, network r) call client w) as [r' [-> _]].
Qed.

(** ** The characters of an error text *)

Lemma is_ascii_append (a b : string) : is_ascii (a +:+ b) = is_ascii a && is_ascii b.
Proof.
  induction a as [|c rest IH]; [reflexivity|].
  change (is_ascii (String c (rest +:+ b)) = is_ascii (String c rest) && is_ascii b).
  simpl. rewrite IH. by rewrite andb_assoc.
Qed.

Lemma is_ascii_join (sep : string) (parts : list string) :
  is_ascii sep = true →
  Forall (λ p, is_ascii p = true) parts →
  is_ascii (join sep parts) = true.
Proof.
  intros Hsep Hparts. induction Hparts as [|p rest Hp Hrest IH]; [reflexivity|].
  destruct rest as [|q rest]; [exact Hp|].
  change (is_ascii (p +:+ sep +:+ join sep (q :: rest)) = true).
  by rewrite !is_ascii_append, Hp, Hsep, IH.
Qed.

Lemma is_ascii_concat_map (f : ascii → string) (s : string) :
  (∀ x, is_ascii (f x) = true) → is_ascii (concat_map f s) = true.
Proof.
  intros Hf. induction s as [|x rest IH]; [reflexivity|].
  simpl. by rewrite is_ascii_append, Hf, IH.
Qed.

Lemma json_escape_is_ascii (c : ascii) : is_ascii (json_escape true c) = true.
Proof. destruct c as [[] [] [] [] [] [] [] []]; reflexivity. Qed.

Lemma json_string_is_ascii (s : string) : is_ascii (json_string true s) = true.
Proof.
  unfold json_string. rewrite !is_ascii_append, is_ascii_concat_map; [reflexivity|].
  apply json_escape_is_ascii.
Qed.

Lemma digits_are_ascii (d : Decimal.uint) :
  is_ascii (NilEmpty.string_of_uint d) = true.
Proof. induction d; [reflexivity | exact IHd ..]. Qed.

Lemma str_int_is_ascii (n : Z) : is_ascii (str_int n) = true.
Proof.
  unfold str_int.
  destruct (Z.to_int n) as [d|d]; simpl; destruct d;
    first [reflexivity | apply digits_are_ascii].
Qed.

Lemma spaces_are_ascii (n : nat) : is_ascii (spaces n) = true.
Proof. induction n as [|n IH]; [reflexivity | exact IH]. Qed.

Lemma newline_indent_is_ascii (indent : option nat) (level : nat) :
  is_ascii (newline_indent indent level) = true.
Proof. destruct indent as [width|]; [apply spaces_are_ascii | reflexivity]. Qed.

Lemma item_separator_is_ascii (indent : option nat) :
  is_ascii (item_separator indent) = true.
Proof. by destruct indent. Qed.

Lemma dumps_at_is_ascii (indent : option nat) (v : value) :
  ∀ level, is_ascii (dumps_at true indent level v) = true.
Proof.
  induction v as [|b|n|s|xs IH|items IH] using value_nested_ind; intros level.
  - reflexivity.
  - by destruct b.
  - apply str_int_is_ascii.
  - apply json_string_is_ascii.
  - destruct xs as [|x xs]; [reflexivity|].
    change (is_ascii
              ("[" +:+ newline_indent indent (S level)
               +:+ join (item_separator indent +:+ newline_indent indent (S level))
                     (map (dumps_at true indent (S level)) (x :: xs))
               +:+ newline_indent indent level +:+ "]") = true).
    rewrite !is_ascii_append, !newline_indent_is_ascii, is_ascii_join; [reflexivity | |].
    + by rewrite is_ascii_append, item_separator_is_ascii, newline_indent_is_ascii.
    + apply Forall_map. eapply Forall_impl; [exact IH|]. simpl. auto.
  - destruct items as [|kv items]; [reflexivity|].
    change (is_ascii
              ("{" +:+ newline_indent indent (S level)
               +:+ join (item_separator indent +:+ newline_indent indent (S level))
                     (map (λ kv, match kv with
                                 | (k, x) => json_string true k +:+ ": "
                                             +:+ dumps_at true indent (S level) x
                                 end) (kv :: items))
               +:+ newline_indent indent level +:+ "}") = true).
    rewrite !is_ascii_append, !newline_indent_is_ascii, is_ascii_join; [reflexivity | |].
    + by rewrite is_ascii_append, item_separator_is_ascii, newline_indent_is_ascii.
    + apply Forall_map. eapply Forall_impl; [exact IH|].
      intros [k x] Hx. simpl in Hx. cbv beta iota.
      by rewrite !is_ascii_append, json_string_is_ascii, Hx.
Qed.

(** X12.  The text [handle_api_error] makes of a [SmartleadAPIError] is
    ["Error (<status>): "], the message as it is, and then either
    nothing or a [Details] block; that block is pure ASCII whatever the
    details hold, because it is written with [json.dumps]'s default of
    escaping every other character. *)
Theorem error_details_are_ascii (status : Z) (message details : value) :
  ∃ block,
    handle_api_error (SmartleadAPIError status message details)
    = ("Error (" +:+ str_int status +:+ "): " +:+ py_str message) +:+ block
    ∧ is_ascii block = true
    ∧ (block = "" ↔ truthy details = false).
Proof.
  unfold handle_api_error. destruct (truthy details).
  - eexists. split; [reflexivity|]. split.
    + change (is_ascii (String newline "Details: "
                        +:+ json_dumps true (Some 2%nat) details) = true).
      rewrite is_ascii_append. unfold json_dumps. by rewrite dumps_at_is_ascii.
    + split; discriminate.
  - exists "". split; [by rewrite append_empty_r|]. by split.
Qed.

(** ** Tool calls under the lifespan *)

(** X13.  The client the lifespan builds has no connection of its own,
    so a tool call made under the lifespan opens a connection with the
    timeout of 30, sends its one request on it and closes it again: no
    connection is kept from one call to the next. *)
Theorem lifespan_calls_use_transient_connections (network : Request → reply)
    (env : environ) (call : Main.invocation) (w : world) :
  unset env "SMARTLEAD_API_KEY" = false →
  ∃ r : Request,
    log (snd (Main.smartlead_lifespan env
                (λ lifespan,
                   Main.invoke network (mkContext (mkRequestContext (Some lifespan)))
                     call) w))
    = (log w ++ [Opened (Transient 30); Requested (Transient 30) r;
                 Closed (Transient 30)])%list.
Proof.
  intros Hkey.
  rewrite lifespan_run.
  unfold unset in Hkey.
  destruct (env !! "SMARTLEAD_API_KEY") as [[|c key]|]; try discriminate.
  cbv zeta.
  set (client := mkClient (String c key) _ 30 None).
  change (mkContext (mkRequestContext (Some (mkLifespanContext (Some (ClientObject client))))))
    with (context_of client).
  unfold try_finally.
  pose proof (invoke_world network client call w) as Hworld.
  destruct (Main.invoke network (context_of client) call w) as [result w'].
  simpl in Hworld. subst w'. simpl.
  destruct (operation_log network call client w) as [r Hr].
  exists r. exact Hr.
Qed.

Lemma lifespan_calls_use_transient_connections_with_key_set :
  unset sample_environ "SMARTLEAD_API_KEY" = false
  ∧ ∃ r : Request,
      log (snd (Main.smartlead_lifespan sample_environ
                  (λ lifespan,
                     Main.invoke (answering ok_true)
                       (mkContext (mkRequestContext (Some lifespan)))
                       Main.ListCampaigns) empty_world))
      = [Opened (Transient 30); Requested (Transient 30) r; Closed (Transient 30)].
Proof.
  split; [reflexivity|].
  apply (lifespan_calls_use_transient_connections (answering ok_true) sample_environ
           Main.ListCampaigns empty_world).
  reflexivity.
Defined.
